(** * Image speed test: server (app.py) and download probe (image_speed_test.py)

    A shallow embedding of the two Python modules of the repository and the
    properties of their specification.

    Conventions of the embedding.
    - Python [int] is [Z].  Python [float] values are modelled by exact
      rationals [Q], without rounding error.  The one float comparison a
      property depends on, the acceptance test of the quality search, is
      also written in IEEE 754 binary64 ([within_target_binary64]) and
      compared with the rational one.
    - Exceptions are values of type [pyexn]; a computation that may raise
      returns an [outcome].  Only exceptions deriving from [Exception] are
      modelled (the ones the called operations raise); asynchronous signals
      such as [KeyboardInterrupt] are outside the model.
    - The libraries the code calls (Pillow, requests, the clock, the random
      generator) are not part of the repository: they are parameters,
      gathered in records, and every theorem holds for all their values. *)

From Stdlib Require Import ZArith QArith Qabs List String Ascii Bool Lia Lqa.
From Stdlib Require Import DecimalString.
From Stdlib Require Import Floats.SpecFloat.
From Equations Require Import Equations.
Import ListNotations.

Open Scope Z_scope.
Open Scope string_scope.

(* ===================================================================== *)
(** ** Python values shared by both modules *)
(* ===================================================================== *)

(** [str(n)] for an integer. *)
Definition str (n : Z) : string := NilZero.string_of_int (Z.to_int n).

(** Round a rational to the nearest integer, ties to the even one: the
    rounding of Python's fixed-point format specifications. *)
Definition round_half_even (x : Q) : Z :=
  let n := Qnum x in
  let d := Zpos (Qden x) in
  let f := n / d in
  match (2 * (n mod d)) ?= d with
  | Lt => f
  | Gt => f + 1
  | Eq => if Z.even f then f else f + 1
  end.

Fixpoint zeros (n : nat) : string :=
  match n with
  | O => ""
  | S n' => "0" ++ zeros n'
  end.

(** Left-pad a digit string with zeros up to a width. *)
Definition zfill (width : nat) (s : string) : string :=
  zeros (width - String.length s) ++ s.

(** [shown places x] is the integer [m] such that the text produced by
    the format [.{places}f] reads [m / 10^places] (in absolute value). *)
Definition shown (places : nat) (x : Q) : Z :=
  round_half_even (Qabs x * inject_Z (10 ^ Z.of_nat places)).

(** [f"{x:.{places}f}"] for [places >= 1]. *)
Definition format_fixed (places : nat) (x : Q) : string :=
  let scale := 10 ^ Z.of_nat places in
  let m := shown places x in
  (if Qle_bool 0 x then "" else "-")
    ++ str (m / scale) ++ "." ++ zfill places (str (m mod scale)).

Definition Qlt_bool (x y : Q) : bool := negb (Qle_bool y x).

(* ===================================================================== *)
(** ** image_speed_test.py: the report formatter *)
(* ===================================================================== *)

Module Formatter.

(** The loop shared by [format_bytes] and [format_speed]:
<<
    for unit in units:
        if value < 1024.0:
            return f"{value:.2f} {unit}"
        value /= 1024.0
    return f"{value:.2f} {last}"
>> *)
Fixpoint format_units (units : list string) (last : string) (value : Q) : string :=
  match units with
  | [] => format_fixed 2 value ++ " " ++ last
  | unit :: rest =>
      if Qlt_bool value 1024 then format_fixed 2 value ++ " " ++ unit
      else format_units rest last (value / 1024)
  end.

Definition format_bytes (bytes_value : Q) : string :=
  format_units ["B"; "KB"; "MB"; "GB"] "TB" bytes_value.

Definition format_speed (bytes_per_second : Q) : string :=
  format_units ["B/s"; "KB/s"; "MB/s"; "GB/s"] "TB/s" bytes_per_second.

(** The unit names in order, and the scale the loop stops at: the number
    of divisions by 1024 it performs, at most [4]. *)
Definition unit_names : list string := ["B"; "KB"; "MB"; "GB"; "TB"].

Fixpoint scale_steps (fuel : nat) (value : Q) : nat :=
  match fuel with
  | O => O
  | S fuel' =>
      if Qlt_bool value 1024 then O else S (scale_steps fuel' (value / 1024))
  end.

Definition unit_index (value : Q) : nat := scale_steps 4 value.

(** The value the loop ends with, after [unit_index] divisions. *)
Fixpoint scale_value (fuel : nat) (value : Q) : Q :=
  match fuel with
  | O => value
  | S fuel' =>
      if Qlt_bool value 1024 then value else scale_value fuel' (value / 1024)
  end.

Definition scaled (value : Q) : Q := scale_value 4 value.

End Formatter.

(* ===================================================================== *)
(** ** Exceptions, outcomes and the state-and-exception monad *)
(* ===================================================================== *)

(** The [except] clauses of the code distinguish exactly two classes:
    [requests.exceptions.RequestException] (with its subclasses
    [ConnectionError], [Timeout], [HTTPError], ...) and every other
    [Exception]. *)
Inductive exn_class : Type :=
| RequestException
| OtherException.

Record pyexn : Type := mk_exn {
  exn_class_of : exn_class;
  exn_str : string            (* str(e) *)
}.

Inductive outcome (A : Type) : Type :=
| Returned (a : A)
| Raised (e : pyexn).
Arguments Returned {A} a.
Arguments Raised {A} e.

(** A computation over a state [S] that returns or raises. *)
Definition M (S A : Type) : Type := S -> outcome A * S.

Definition ret {S A} (a : A) : M S A := fun s => (Returned a, s).

Definition raise {S A} (e : pyexn) : M S A := fun s => (Raised e, s).

Definition bind {S A B} (c : M S A) (k : A -> M S B) : M S B :=
  fun s =>
    match c s with
    | (Returned a, s') => k a s'
    | (Raised e, s') => (Raised e, s')
    end.

Definition lift_outcome {S A} (o : outcome A) : M S A := fun s => (o, s).

Declare Scope py_scope.
Delimit Scope py_scope with py.
Notation "x <- c ;; k" := (bind c (fun x => k))
  (at level 100, c at next level, right associativity) : py_scope.
Notation "c ;;; k" := (bind c (fun _ => k))
  (at level 100, right associativity) : py_scope.
Open Scope py_scope.

(** [try: body except RequestException as e: h1(e) except Exception as e: h2(e)] *)
Definition try_except {S A} (body : M S A)
    (on_request_exception on_exception : pyexn -> M S A) : M S A :=
  fun s =>
    match body s with
    | (Returned a, s') => (Returned a, s')
    | (Raised e, s') =>
        match exn_class_of e with
        | RequestException => on_request_exception e s'
        | OtherException => on_exception e s'
        end
    end.

(** Python values that the result dictionaries hold, and dictionaries
    written as literals, in key order. *)
Inductive pyval : Type :=
| PyNone
| PyStr (s : string)
| PyInt (n : Z)
| PyFloat (x : Q)
| PyBool (b : bool).

Definition pydict : Type := list (string * pyval).

Fixpoint get (d : pydict) (key : string) : option pyval :=
  match d with
  | [] => None
  | (k, v) :: rest => if String.eqb k key then Some v else get rest key
  end.

Definition has_key (d : pydict) (key : string) : bool :=
  match get d key with Some _ => true | None => false end.

(* ===================================================================== *)
(** ** image_speed_test.py: the streaming download probe *)
(* ===================================================================== *)

Module Downloader.

Import Formatter.

(** What [requests.get(url, stream=True, timeout=timeout)] hands back when
    it does not raise: the behaviour of the response object the code uses. *)
Record response : Type := {
  (** what [raise_for_status()] raises; [None] for a 2xx status *)
  status_error : option pyexn;
  (** [headers.get('content-length')] *)
  content_length_header : option string;
  (** the chunks [iter_content(chunk_size=8192)] yields, in order *)
  body_chunks : list (list Byte.byte);
  (** the exception that ends the iteration early, if any *)
  stream_error : option pyexn
}.

(** The world outside the function. *)
Record network : Type := {
  requests_get : string -> Z -> outcome response;
  (** the builtin [int()] on a header value *)
  py_int : string -> outcome Z;
  (** successive readings of [time.time()] *)
  time_time_at : nat -> Q
}.

(** State threaded through the function: what was written to standard
    output, and how many times the clock has been read. *)
Record console : Type := {
  stdout : list string;
  clock_reads : nat
}.

Definition newline : string := String (ascii_of_nat 10) "".
Definition carriage_return : string := String (ascii_of_nat 13) "".

(** [print(s)] and [print(s, end='', flush=True)]: a write to standard
    output, taken to succeed. *)
Definition print (s : string) : M console unit :=
  fun c => (Returned tt,
            {| stdout := stdout c ++ [s ++ newline]; clock_reads := clock_reads c |}).

Definition print_no_end (s : string) : M console unit :=
  fun c => (Returned tt,
            {| stdout := stdout c ++ [s]; clock_reads := clock_reads c |}).

(** ["-" * 50] *)
Fixpoint string_times (s : string) (n : nat) : string :=
  match n with
  | O => ""
  | S n' => s ++ string_times s n'
  end.

Definition len (chunk : list Byte.byte) : Z := Z.of_nat (List.length chunk).

Section WithNetwork.

Variable net : network.

Definition time_time : M console Q :=
  fun c => (Returned (time_time_at net (clock_reads c)),
            {| stdout := stdout c; clock_reads := S (clock_reads c) |}).

Definition raise_for_status (r : response) : M console unit :=
  match status_error r with
  | Some e => raise e
  | None => ret tt
  end.

(** The truth value of [content_length] and of [total_size]. *)
Definition truthy_str (s : option string) : bool :=
  match s with
  | Some (String _ _) => true
  | _ => false
  end.

Definition truthy_int (n : Z) : bool := negb (Z.eqb n 0).

(** The progress line printed for one chunk when the total is known. *)
Definition progress_line (downloaded_bytes total_size : Z) : string :=
  let progress := (inject_Z downloaded_bytes / inject_Z total_size * 100)%Q in
  carriage_return ++ "Progress: " ++ format_fixed 1 progress ++ "% ("
    ++ format_bytes (inject_Z downloaded_bytes) ++ "/"
    ++ format_bytes (inject_Z total_size) ++ ")".

(** [for chunk in response.iter_content(chunk_size=chunk_size): ...] *)
Fixpoint consume (total_size : option Z) (chunks : list (list Byte.byte))
    (downloaded_bytes : Z) : M console Z :=
  match chunks with
  | [] => ret downloaded_bytes
  | chunk :: rest =>
      match chunk with
      | [] => consume total_size rest downloaded_bytes
      | _ :: _ =>
          let downloaded_bytes := downloaded_bytes + len chunk in
          (match total_size with
           | Some total =>
               if truthy_int total
               then print_no_end (progress_line downloaded_bytes total)
               else ret tt
           | None => ret tt
           end) ;;;
          consume total_size rest downloaded_bytes
      end
  end.

Definition iter_content (r : response) (total_size : option Z) : M console Z :=
  downloaded_bytes <- consume total_size (body_chunks r) 0 ;;
  match stream_error r with
  | Some e => raise e
  | None => ret downloaded_bytes
  end.

(** The body of the [try] block. *)
Definition download_body (url : string) (timeout : Z) : M console pydict :=
  start_time <- time_time ;;
  response <- lift_outcome (requests_get net url timeout) ;;
  raise_for_status response ;;;
  let content_length := content_length_header response in
  total_size <-
    (if truthy_str content_length then
       match content_length with
       | Some text =>
           total_size <- lift_outcome (py_int net text) ;;
           print ("File size: " ++ format_bytes (inject_Z total_size)) ;;;
           ret (Some total_size)
       | None => ret None
       end
     else
       print "File size: Unknown (streaming)" ;;;
       ret None) ;;
  downloaded_bytes <- iter_content response total_size ;;
  end_time <- time_time ;;
  let duration := (end_time - start_time)%Q in
  print "" ;;;
  let speed_bps :=
    if Qlt_bool 0 duration
    then PyFloat (inject_Z downloaded_bytes / duration)
    else PyInt 0 in
  let speed_value :=
    match speed_bps with
    | PyFloat x => x
    | _ => 0%Q
    end in
  ret [ ("url", PyStr url);
        ("size_bytes", PyInt downloaded_bytes);
        ("size_formatted", PyStr (format_bytes (inject_Z downloaded_bytes)));
        ("duration_seconds", PyFloat duration);
        ("speed_bps", speed_bps);
        ("speed_formatted", PyStr (format_speed speed_value));
        ("success", PyBool true) ].

(** The dictionary both [except] clauses return. *)
Definition failure_result (url : string) (e : pyexn) : pydict :=
  [ ("url", PyStr url);
    ("error", PyStr (exn_str e));
    ("success", PyBool false) ].

Definition test_image_download_speed (url : string) (timeout : Z)
  : M console pydict :=
  print ("Testing download speed for: " ++ url) ;;;
  print (string_times "-" 50) ;;;
  try_except (download_body url timeout)
    (fun e =>
       print ("Error downloading image: " ++ exn_str e) ;;;
       ret (failure_result url e))
    (fun e =>
       print ("Unexpected error: " ++ exn_str e) ;;;
       ret (failure_result url e)).

End WithNetwork.

(** The console once the two banner lines are printed. *)
Definition after_banner (url : string) (c : console) : console :=
  {| stdout := stdout c ++ [("Testing download speed for: " ++ url) ++ newline]
                        ++ [string_times "-" 50 ++ newline];
     clock_reads := clock_reads c |}.

(** The shape of the dictionary that the [try] block returns. *)
Definition is_success_result (url : string) (result : pydict) : Prop :=
  exists (downloaded_bytes : Z) (duration : Q) (speed_bps : pyval)
         (size_formatted speed_formatted : string),
    result = [ ("url", PyStr url);
               ("size_bytes", PyInt downloaded_bytes);
               ("size_formatted", PyStr size_formatted);
               ("duration_seconds", PyFloat duration);
               ("speed_bps", speed_bps);
               ("speed_formatted", PyStr speed_formatted);
               ("success", PyBool true) ].

End Downloader.

(* ===================================================================== *)
(** ** app.py: the image server *)
(* ===================================================================== *)

Module Server.

(** *** Pillow, as far as the code uses it *)

(** What has been drawn on an image, in drawing order. *)
Inductive draw_op : Type :=
| Rectangle (x0 y0 x1 y1 : Z) (fill : Z * Z * Z)
| Text (x y : Z) (text : string) (with_font : bool).

(** An [Image] object: its size and what was drawn on its white ground. *)
Record image : Type := {
  img_width : Z;
  img_height : Z;
  img_drawn : list draw_op
}.

(** The calls into Pillow that allocate or encode, as they happen. *)
Inductive pil_call : Type :=
| ImageNew (width height : Z)
| ImageSave (width height quality : Z).

Record pillow : Type := {
  (** what [Image.new('RGB', (width, height), color='white')] raises, if
      anything *)
  image_new_error : Z -> Z -> option pyexn;
  (** whether [ImageFont.load_default()] returns a font (it is called
      under a bare [except] that falls back to [None]) *)
  default_font : bool;
  (** [img.save(img_bytes, format='JPEG', quality=quality)] on an empty
      buffer: the bytes written, or the exception raised *)
  jpeg_save : image -> Z -> outcome (list Byte.byte)
}.

(** *** The serving process *)

(** Which of the two routes produced an observation: the key
    ['dimensions'] or the key ['target_size_kb'] of the dictionary. *)
Inductive payload_label : Type :=
| Dimensions (text : string)
| TargetSizeKb (size_kb : Z).

(** The dictionary [request_data]. *)
Record request_data : Type := {
  timestamp : Q;
  client_ip : option string;
  user_agent : string;
  image_size : Z;
  label : payload_label;
  start_time : Q
}.

(** Module-level state of the process and the cursors into the streams
    of the outside world. *)
Record world : Type := {
  timing_data : list request_data;
  pil_calls : list pil_call;
  random_draws : nat;
  clock_reads : nat
}.

Definition initial_world : world :=
  {| timing_data := []; pil_calls := []; random_draws := O; clock_reads := O |}.

(** The outside world of the server. *)
Record environment : Type := {
  pil : pillow;
  (** successive results of [random.randint(0, 255)] *)
  randint_at : nat -> Z;
  (** successive readings of [time.time()] *)
  time_time_at : nat -> Q
}.

(** What the handlers read of the Flask [request]. *)
Record flask_request : Type := {
  http_x_forwarded_for : option string;   (* request.environ entry *)
  remote_addr : option string;
  user_agent_header : option string
}.

(** The arguments of [send_file]. *)
Record file_response : Type := {
  file_body : list Byte.byte;
  mimetype : string;
  as_attachment : bool;
  download_name : string
}.

(** The values of the dictionaries handed to [jsonify]: a scalar, or a
    list of request dictionaries. *)
Inductive json_value : Type :=
| Scalar (v : pyval)
| Records (items : list pydict).

Definition json_response : Type := list (string * json_value).

Fixpoint field (d : json_response) (key : string) : option json_value :=
  match d with
  | [] => None
  | (k, v) :: rest => if String.eqb k key then Some v else field rest key
  end.

Definition len {A} (l : list A) : Z := Z.of_nat (List.length l).

(** [range(0, stop, step)] for a positive [step]. *)
Definition range (stop step : Z) : list Z :=
  map (fun k => Z.of_nat k * step) (seq 0 (Z.to_nat ((stop + step - 1) / step))).

(** [for x in xs: acc = body(x, acc)] *)
Fixpoint for_each {S A B} (xs : list A) (acc : B) (body : A -> B -> M S B) : M S B :=
  match xs with
  | [] => ret acc
  | x :: rest => acc' <- body x acc ;; for_each rest acc' body
  end.

Definition default_width : Z := 1920.
Definition default_height : Z := 1080.

Section WithEnvironment.

Variable env : environment.

Definition set_timing_data (l : list request_data) (w : world) : world :=
  {| timing_data := l; pil_calls := pil_calls w;
     random_draws := random_draws w; clock_reads := clock_reads w |}.

Definition log_pil_call (c : pil_call) (w : world) : world :=
  {| timing_data := timing_data w; pil_calls := pil_calls w ++ [c];
     random_draws := random_draws w; clock_reads := clock_reads w |}.

Definition time_time : M world Q :=
  fun w => (Returned (time_time_at env (clock_reads w)),
            {| timing_data := timing_data w; pil_calls := pil_calls w;
               random_draws := random_draws w; clock_reads := S (clock_reads w) |}).

(** [random.randint(0, 255)] *)
Definition randint : M world Z :=
  fun w => (Returned (randint_at env (random_draws w)),
            {| timing_data := timing_data w; pil_calls := pil_calls w;
               random_draws := S (random_draws w); clock_reads := clock_reads w |}).

Definition Image_new (width height : Z) : M world image :=
  fun w =>
    let w' := log_pil_call (ImageNew width height) w in
    match image_new_error (pil env) width height with
    | Some e => (Raised e, w')
    | None =>
        (Returned {| img_width := width; img_height := height; img_drawn := [] |}, w')
    end.

Definition draw (img : image) (op : draw_op) : image :=
  {| img_width := img_width img; img_height := img_height img;
     img_drawn := img_drawn img ++ [op] |}.

(** [img_bytes.seek(0); img_bytes.truncate(0); img.save(img_bytes, ...)]:
    the buffer then holds exactly this encoding. *)
Definition save (img : image) (quality : Z) : M world (list Byte.byte) :=
  fun w =>
    (jpeg_save (pil env) img quality,
     log_pil_call (ImageSave (img_width img) (img_height img) quality) w).

(** [current_size = len(img_bytes.getvalue()) / 1024] and the test
    [current_size <= size_kb * 1.1]. *)
Definition within_target (img_bytes : list Byte.byte) (size_kb : Z) : bool :=
  let current_size := (inject_Z (len img_bytes) / 1024)%Q in
  Qle_bool current_size (inject_Z size_kb * (11 # 10))%Q.

(** The same test computed as the interpreter computes it, in IEEE 754
    binary64 (for integers below [2^53]): the quotient [len / 1024], the
    product of [size_kb] with the double nearest to [1.1], and their
    comparison.  It serves as a cross-check of [within_target]. *)
Definition binary64_of_int (n : Z) : spec_float :=
  binary_normalize 53 1024 n 0 false.

Definition binary64_1_1 : spec_float :=
  S754_finite false 4953959590107546 (-52).

Definition within_target_binary64 (size size_kb : Z) : bool :=
  let current_size :=
    SFdiv 53 1024 (binary64_of_int size) (binary64_of_int 1024) in
  SFleb current_size (SFmul 53 1024 (binary64_of_int size_kb) binary64_1_1).

(** The [while True] loop of [generate_test_image], entered with a value
    of [quality].  It returns the buffer contents and the value of
    [quality] when the loop is left. *)
Equations? quality_search (img : image) (size_kb : Z) (quality : Z) (w : world)
  : outcome (list Byte.byte * Z) * world by wf (Z.to_nat quality) lt :=
  quality_search img size_kb quality w with save img quality w => {
    | (Raised e, w') := (Raised e, w');
    | (Returned img_bytes, w') with within_target img_bytes size_kb => {
        | true := (Returned (img_bytes, quality), w');
        | false with Z_lt_dec (quality - 5) 10 => {
            | left _ := (Returned (img_bytes, quality - 5), w');
            | right _ := quality_search img size_kb (quality - 5) w' } } }.
Proof. lia. Qed.

(** The first half of [generate_test_image]: the white canvas, the grid
    of coloured squares and the label. *)
Definition paint_test_image (width height : Z) : M world image :=
  img <- Image_new width height ;;
  img <- for_each (range width 50) img (fun i img =>
           for_each (range height 50) img (fun j img =>
             r <- randint ;;
             g <- randint ;;
             b <- randint ;;
             ret (draw img (Rectangle i j (i + 25) (j + 25) (r, g, b))))) ;;
  let font := default_font (pil env) in
  let text := "Speed Test Image - " ++ str width ++ "x" ++ str height in
  ret (draw img (Text 50 50 text font)).

(** [generate_test_image(width=1920, height=1080, size_kb=None)]; the
    callers below pass the defaults explicitly.  [if size_kb:] holds for
    an integer other than [0]. *)
Definition generate_test_image (width height : Z) (size_kb : option Z)
  : M world (list Byte.byte) :=
  img <- paint_test_image width height ;;
  match size_kb with
  | Some target =>
      if negb (Z.eqb target 0) then
        found <- quality_search img target 85 ;;
        ret (fst found)
      else save img 85
  | None => save img 85
  end.

(** *** Operations on the module-level list [timing_data] *)

Definition timing_data_append (request : request_data) : M world unit :=
  fun w => (Returned tt, set_timing_data (timing_data w ++ [request]) w).

Definition timing_data_len : M world Z :=
  fun w => (Returned (len (timing_data w)), w).

(** [timing_data.pop(0)] *)
Definition timing_data_pop_0 : M world request_data :=
  fun w =>
    match timing_data w with
    | [] => (Raised (mk_exn OtherException "pop from empty list"), w)
    | oldest :: rest => (Returned oldest, set_timing_data rest w)
    end.

(** *** The request handlers *)

(** [request.environ.get('HTTP_X_FORWARDED_FOR', request.remote_addr)] *)
Definition client_ip_of (request : flask_request) : option string :=
  match http_x_forwarded_for request with
  | Some forwarded => Some forwarded
  | None => remote_addr request
  end.

(** [request.headers.get('User-Agent', 'Unknown')] *)
Definition user_agent_of (request : flask_request) : string :=
  match user_agent_header request with
  | Some agent => agent
  | None => "Unknown"
  end.

Definition send_file (img_bytes : list Byte.byte) (name : string) : file_response :=
  {| file_body := img_bytes; mimetype := "image/jpeg";
     as_attachment := false; download_name := name |}.

(** Route [/image/<int:width>/<int:height>]. *)
Definition serve_image (request : flask_request) (width height : Z)
  : M world file_response :=
  start <- time_time ;;
  img_bytes <- generate_test_image width height None ;;
  let client := client_ip_of request in
  let agent := user_agent_of request in
  let size := len img_bytes in
  now <- time_time ;;
  let request_data :=
    {| timestamp := now; client_ip := client; user_agent := agent;
       image_size := size;
       label := Dimensions (str width ++ "x" ++ str height);
       start_time := start |} in
  timing_data_append request_data ;;;
  n <- timing_data_len ;;
  (if Z.ltb 100 n then timing_data_pop_0 ;;; ret tt else ret tt) ;;;
  ret (send_file img_bytes
         ("test_image_" ++ str width ++ "x" ++ str height ++ ".jpg")).

(** Route [/image/<int:size_kb>kb]. *)
Definition serve_sized_image (request : flask_request) (size_kb : Z)
  : M world file_response :=
  start <- time_time ;;
  img_bytes <- generate_test_image default_width default_height (Some size_kb) ;;
  let client := client_ip_of request in
  let agent := user_agent_of request in
  let actual_size := len img_bytes in
  now <- time_time ;;
  let request_data :=
    {| timestamp := now; client_ip := client; user_agent := agent;
       image_size := actual_size;
       label := TargetSizeKb size_kb;
       start_time := start |} in
  timing_data_append request_data ;;;
  n <- timing_data_len ;;
  (if Z.ltb 100 n then timing_data_pop_0 ;;; ret tt else ret tt) ;;;
  ret (send_file img_bytes ("test_image_" ++ str size_kb ++ "kb.jpg")).

(** A request dictionary as [jsonify] sees it. *)
Definition to_dict (r : request_data) : pydict :=
  [ ("timestamp", PyFloat (timestamp r));
    ("client_ip", match client_ip r with Some ip => PyStr ip | None => PyNone end);
    ("user_agent", PyStr (user_agent r));
    ("image_size", PyInt (image_size r));
    match label r with
    | Dimensions text => ("dimensions", PyStr text)
    | TargetSizeKb size_kb => ("target_size_kb", PyInt size_kb)
    end;
    ("start_time", PyFloat (start_time r)) ].

(** [sum(req['image_size'] for req in timing_data)] *)
Definition sum_image_size (l : list request_data) : Z :=
  fold_left (fun acc req => acc + image_size req) l 0.

(** [l[-10:]] *)
Definition last_10 {A} (l : list A) : list A :=
  skipn (List.length l - 10) l.

(** The answer of [/stats] while nothing is recorded. *)
Definition no_requests_yet : json_response :=
  [ ("message", Scalar (PyStr "No requests yet"));
    ("total_requests", Scalar (PyInt 0)) ].

(** The dictionary [/stats] answers with once something is recorded,
    from the values of the locals [total_requests], [total_size] and
    [recent_requests]. *)
Definition stats_response (total_requests total_size : Z)
    (recent_requests : list request_data) : json_response :=
  let avg_size :=
    if Z.ltb 0 total_requests
    then PyFloat (inject_Z total_size / inject_Z total_requests)
    else PyInt 0 in
  [ ("total_requests", Scalar (PyInt total_requests));
    ("total_data_served", Scalar (PyInt total_size));
    ("average_image_size", Scalar avg_size);
    ("recent_requests", Records (map to_dict recent_requests)) ].

(** Route [/stats]. *)
Definition get_stats : M world json_response :=
  fun w =>
    match timing_data w with
    | [] => (Returned no_requests_yet, w)
    | _ :: _ =>
        let total_requests := len (timing_data w) in
        let total_size := sum_image_size (timing_data w) in
        let recent_requests := last_10 (timing_data w) in
        (Returned (stats_response total_requests total_size recent_requests), w)
    end.

(** The answer of [/clear-stats]. *)
Definition stats_cleared : json_response :=
  [ ("message", Scalar (PyStr "Stats cleared")) ].

(** Route [/clear-stats]. *)
Definition clear_stats : M world json_response :=
  fun w => (Returned stats_cleared, set_timing_data [] w).

(** *** The routes together *)

Inductive http_request : Type :=
| GetImage (request : flask_request) (width height : Z)
| GetSizedImage (request : flask_request) (size_kb : Z)
| GetStats
| GetClearStats.

Inductive http_response : Type :=
| File (f : file_response)
| Json (j : json_response)
| InternalServerError (e : pyexn).

(** One request handled to completion; an exception that leaves a handler
    becomes a 500 answer. *)
Definition handle (r : http_request) (w : world) : http_response * world :=
  match r with
  | GetImage request width height =>
      match serve_image request width height w with
      | (Returned f, w') => (File f, w')
      | (Raised e, w') => (InternalServerError e, w')
      end
  | GetSizedImage request size_kb =>
      match serve_sized_image request size_kb w with
      | (Returned f, w') => (File f, w')
      | (Raised e, w') => (InternalServerError e, w')
      end
  | GetStats =>
      match get_stats w with
      | (Returned j, w') => (Json j, w')
      | (Raised e, w') => (InternalServerError e, w')
      end
  | GetClearStats =>
      match clear_stats w with
      | (Returned j, w') => (Json j, w')
      | (Raised e, w') => (InternalServerError e, w')
      end
  end.

(** Requests handled one after the other. *)
Fixpoint serve (requests : list http_request) (w : world) : world :=
  match requests with
  | [] => w
  | r :: rest => serve rest (snd (handle r w))
  end.

End WithEnvironment.

(** *** The log discipline, as a function on lists

    What the three lines
<<
    timing_data.append(request_data)
    if len(timing_data) > 100:
        timing_data.pop(0)
>>
    do to the list; the handlers are related to it by [record_appends]. *)
Definition appended (log : list request_data) (request : request_data)
  : list request_data :=
  let log' := (log ++ [request])%list in
  if Z.ltb 100 (len log') then tl log' else log'.

(** The last [n] elements of a list. *)
Definition lastn {A} (n : nat) (l : list A) : list A :=
  skipn (List.length l - n) l.

(** While an image of the given size is being drawn on, starting in the
    world [w0]: nothing but the random generator has been used since. *)
Definition drawing (width height : Z) (w0 : world) (img : image) (w : world)
  : Prop :=
  img_width img = width /\ img_height img = height
  /\ pil_calls w = pil_calls w0
  /\ timing_data w = timing_data w0
  /\ clock_reads w = clock_reads w0.

(** The qualities [quality], [quality - 5], ... : [n] of them. *)
Fixpoint countdown (quality : Z) (n : nat) : list Z :=
  match n with
  | O => []
  | S n' => quality :: countdown (quality - 5) n'
  end.

(** The encodings of an image at the given qualities, as Pillow calls. *)
Definition saves_of (img : image) (qualities : list Z) : list pil_call :=
  map (ImageSave (img_width img) (img_height img)) qualities.

(** Pillow serves a request of the given size: the canvas is allocated
    and every encoding of an image of that size returns at least one
    byte (a JPEG stream is never empty). *)
Definition pillow_accepts (env : environment) (width height : Z) : Prop :=
  image_new_error (pil env) width height = None
  /\ forall (img : image) (quality : Z),
       img_width img = width -> img_height img = height ->
       exists img_bytes,
         jpeg_save (pil env) img quality = Returned img_bytes
         /\ 0 < len img_bytes.

(** *** Sample values for the examples *)

(** A stand-in for Pillow: a negative size cannot be allocated, an empty
    image cannot be encoded, and an encoding takes [64] bytes and [16]
    more per unit of quality. *)
Definition sample_pillow : pillow :=
  {| image_new_error := fun width height =>
       if Z.ltb width 0 || Z.ltb height 0
       then Some (mk_exn OtherException "Width and height must be >= 0")
       else None;
     default_font := true;
     jpeg_save := fun img quality =>
       if Z.ltb 0 (img_width img) && Z.ltb 0 (img_height img)
       then Returned (repeat Byte.x00 (Z.to_nat (64 + 16 * Z.max 0 quality)))
       else Raised (mk_exn OtherException "cannot write empty image as JPEG") |}.

Definition sample_environment : environment :=
  {| pil := sample_pillow;
     randint_at := fun n => Z.of_nat (Nat.modulo (7 * n) 256);
     time_time_at := fun n => inject_Z (Z.of_nat n) |}.

Definition sample_request : flask_request :=
  {| http_x_forwarded_for := None;
     remote_addr := Some "127.0.0.1";
     user_agent_header := None |}.

(** An observation of a payload of the given size. *)
Definition observation (size : Z) : request_data :=
  {| timestamp := 0; client_ip := None; user_agent := "Unknown";
     image_size := size; label := Dimensions "1x1"; start_time := 0 |}.

End Server.

(* ===================================================================== *)
(** ** app.py under concurrent requests *)
(* ===================================================================== *)

(** The handlers take no lock, so requests served by different threads
    interleave.  The model below lets a thread switch happen between any
    two statements that touch [timing_data], and nowhere else: every
    interleaving of the model is one the interpreter can produce. *)
Module Interleaving.

Import Server.

(** The part of a request that touches the log. *)
Inductive handler : Type :=
| Append (request : request_data)   (* both image routes, once the image is made *)
| Stats                             (* /stats *)
| Clear.                            (* /clear-stats *)

(** A thread, by the statement it executes next and its locals. *)
Inductive thread : Type :=
| AtAppend (request : request_data)   (* timing_data.append(request_data) *)
| AtLenTest                           (* if len(timing_data) > 100: *)
| AtPop                               (* timing_data.pop(0) *)
| AtEmptyTest                         (* if not timing_data: *)
| AtLen                               (* total_requests = len(timing_data) *)
| AtSum (total_requests : Z)          (* total_size = sum(...) *)
| AtRecent (total_requests total_size : Z)
                                      (* recent_requests = timing_data[-10:] *)
| AtRebind                            (* timing_data = [] *)
| Finished (answer : option json_response)
| Failed (e : pyexn).

Definition start (h : handler) : thread :=
  match h with
  | Append request => AtAppend request
  | Stats => AtEmptyTest
  | Clear => AtRebind
  end.

(** One statement of one thread, on the shared list. *)
Definition step (t : thread) (log : list request_data)
  : thread * list request_data :=
  match t with
  | AtAppend request => (AtLenTest, (log ++ [request])%list)
  | AtLenTest => (if Z.ltb 100 (len log) then AtPop else Finished None, log)
  | AtPop =>
      match log with
      | [] => (Failed (mk_exn OtherException "pop from empty list"), log)
      | _ :: rest => (Finished None, rest)
      end
  | AtEmptyTest =>
      (match log with
       | [] => Finished (Some no_requests_yet)
       | _ :: _ => AtLen
       end, log)
  | AtLen => (AtSum (len log), log)
  | AtSum total_requests => (AtRecent total_requests (sum_image_size log), log)
  | AtRecent total_requests total_size =>
      (Finished (Some (stats_response total_requests total_size (last_10 log))), log)
  | AtRebind => (Finished (Some stats_cleared), [])
  | Finished answer => (Finished answer, log)
  | Failed e => (Failed e, log)
  end.

(** [steps n t log]: the thread runs [n] statements without interruption. *)
Fixpoint steps (n : nat) (t : thread) (log : list request_data)
  : thread * list request_data :=
  match n with
  | O => (t, log)
  | S n' => let '(t', log') := step t log in steps n' t' log'
  end.

(** The threads in flight and the shared list. *)
Definition pool : Type := list thread * list request_data.

Fixpoint replace_nth {A} (i : nat) (x : A) (l : list A) : list A :=
  match l, i with
  | [], _ => []
  | _ :: rest, O => x :: rest
  | y :: rest, S i' => y :: replace_nth i' x rest
  end.

(** The scheduler picks thread [i] for one statement. *)
Definition schedule_one (i : nat) (p : pool) : pool :=
  match nth_error (fst p) i with
  | Some t => let '(t', log') := step t (snd p) in (replace_nth i t' (fst p), log')
  | None => p
  end.

Definition run (schedule : list nat) (p : pool) : pool :=
  fold_left (fun p i => schedule_one i p) schedule p.

(** A handler run to completion with nothing in between, as the
    sequential handlers of [Server] define it. *)
Definition sequential (h : handler) (log : list request_data)
  : thread * list request_data :=
  match h with
  | Append request => (Finished None, appended log request)
  | Stats =>
      (match fst (get_stats (set_timing_data log initial_world)) with
       | Returned answer => Finished (Some answer)
       | Raised e => Failed e
       end, log)
  | Clear =>
      (match fst (clear_stats (set_timing_data log initial_world)) with
       | Returned answer => Finished (Some answer)
       | Raised e => Failed e
       end,
       timing_data (snd (clear_stats (set_timing_data log initial_world))))
  end.

(** An answer of [/stats] is a consistent view when some single state of
    the log produces it. *)
Definition consistent_view (answer : json_response) : Prop :=
  exists log : list request_data,
    fst (get_stats (set_timing_data log initial_world)) = Returned answer.

(** Handlers run one after the other, each to completion: the threads
    they end as and the list they leave. *)
Fixpoint serial_run (handlers : list handler) (log : list request_data)
  : pool :=
  match handlers with
  | [] => ([], log)
  | h :: rest =>
      let '(t, log') := sequential h log in
      let '(ts, log'') := serial_run rest log' in
      (t :: ts, log'')
  end.

(** The schedule that gives each of the threads [first], [first + 1], ...
    four statements in a row: enough for any handler to finish. *)
Definition serial_schedule (first count : nat) : list nat :=
  flat_map (fun i => repeat i 4) (seq first count).

End Interleaving.

(* ===================================================================== *)
(** ** Notions used to state further properties of app.py *)
(* ===================================================================== *)

Module ServerSpec.

Import Server.

(** The cells of the 50-pixel grid, in the order the nested loops visit
    them: column by column, each column top to bottom. *)
Definition grid_cells (width height : Z) : list (Z * Z) :=
  list_prod (range width 50) (range height 50).

(** The squares drawn for a list of cells when the first colour channel is
    the random draw number [first]: each cell takes three draws. *)
Fixpoint squares (env : environment) (cells : list (Z * Z)) (first : nat)
  : list draw_op :=
  match cells with
  | [] => []
  | (i, j) :: rest =>
      Rectangle i j (i + 25) (j + 25)
        (randint_at env first, randint_at env (S first),
         randint_at env (S (S first)))
      :: squares env rest (3 + first)
  end.

(** An image with further drawing operations applied. *)
Definition drawn_on (img : image) (ops : list draw_op) : image :=
  {| img_width := img_width img; img_height := img_height img;
     img_drawn := (img_drawn img ++ ops)%list |}.

(** A world in which [n] more random numbers have been drawn. *)
Definition after_draws (n : nat) (w : world) : world :=
  {| timing_data := timing_data w; pil_calls := pil_calls w;
     random_draws := (n + random_draws w)%nat; clock_reads := clock_reads w |}.

(** The clock never goes back. *)
Definition monotone_clock (env : environment) : Prop :=
  forall i j : nat, (i <= j)%nat -> (time_time_at env i <= time_time_at env j)%Q.

(** The entries of a log are in chronological order. *)
Fixpoint chronological (log : list request_data) : Prop :=
  match log with
  | [] => True
  | first :: rest =>
      match rest with
      | [] => True
      | second :: _ => (timestamp first <= timestamp second)%Q
      end /\ chronological rest
  end.

(** What holds of the log in every state the server reaches when the
    clock is monotone: the entries are in chronological order, and each
    was stamped at a reading the clock has already given, not before the
    reading that started its request. *)
Definition well_stamped (env : environment) (w : world) : Prop :=
  chronological (timing_data w)
  /\ Forall (fun r =>
               (start_time r <= timestamp r)%Q
               /\ exists k : nat,
                    (k < clock_reads w)%nat
                    /\ timestamp r = time_time_at env k)
       (timing_data w).

End ServerSpec.

(* ===================================================================== *)
(** ** image_speed_test.py: the report and the command line *)
(* ===================================================================== *)

Module Cli.

Import Formatter Downloader.

(** *** Python operations on the values of a result dictionary *)

(** The truth value of a value. *)
Definition truthy (v : pyval) : bool :=
  match v with
  | PyNone => false
  | PyStr s => negb (String.eqb s "")
  | PyInt n => negb (Z.eqb n 0)
  | PyFloat x => negb (Qeq_bool x 0)
  | PyBool b => b
  end.

(** [d[key]]: raises [KeyError] when the key is missing. *)
Definition getitem (d : pydict) (key : string) : M console pyval :=
  match get d key with
  | Some v => ret v
  | None => raise (mk_exn OtherException ("'" ++ key ++ "'"))
  end.

(** [d.get(key, default)] *)
Definition get_default (d : pydict) (key : string) (default : pyval) : pyval :=
  match get d key with
  | Some v => v
  | None => default
  end.

(** A number as a rational: [int], [float] and [bool] are numbers. *)
Definition as_number (v : pyval) : option Q :=
  match v with
  | PyInt n => Some (inject_Z n)
  | PyFloat x => Some x
  | PyBool b => Some (if b then 1%Q else 0%Q)
  | PyNone | PyStr _ => None
  end.

(** [format(v, ".2f")]: defined on numbers, an exception otherwise (the
    text of the messages of the type errors below is abbreviated). *)
Definition format_2f (v : pyval) : M console string :=
  match as_number v with
  | Some x => ret (format_fixed 2 x)
  | None => raise (mk_exn OtherException "unsupported format string")
  end.

(** [v / n] for a non-zero integer [n]: defined on numbers, a [TypeError]
    otherwise. *)
Definition true_divide (v : pyval) (n : Z) : M console Q :=
  match as_number v with
  | Some x => ret (x / inject_Z n)%Q
  | None => raise (mk_exn OtherException "unsupported operand type(s) for /")
  end.

(** The texts of the report. *)
Definition text_failed : string := "❌ Test failed: ".
Definition text_header : string := "📊 DOWNLOAD SPEED TEST RESULTS".
Definition text_excellent : string := "🚀 Excellent speed! (>10 MB/s)".
Definition text_good : string := "✅ Good speed (5-10 MB/s)".
Definition text_moderate : string := "⚠️  Moderate speed (1-5 MB/s)".
Definition text_slow : string := "🐌 Slow speed (<1 MB/s)".
Definition text_title : string := "🖼️  Image Download Speed Test".
Definition text_average : string := "📈 AVERAGE SPEED: ".
Definition text_completed : string := "📊 Tests completed: ".

(** The qualitative band of a throughput in MB/s:
<<
    if speed_mbps > 10: ...
    elif speed_mbps > 5: ...
    elif speed_mbps > 1: ...
    else: ...
>> *)
Definition speed_band (speed_mbps : Q) : string :=
  if Qlt_bool 10 speed_mbps then text_excellent
  else if Qlt_bool 5 speed_mbps then text_good
  else if Qlt_bool 1 speed_mbps then text_moderate
  else text_slow.

Section WithInterpreter.

(** [str(x)] for a float [x], as the interpreter prints it. *)
Variable float_repr : Q -> string.

(** [str(v)], as an f-string inserts a value. *)
Definition py_str (v : pyval) : string :=
  match v with
  | PyNone => "None"
  | PyStr s => s
  | PyInt n => str n
  | PyFloat x => float_repr x
  | PyBool true => "True"
  | PyBool false => "False"
  end.

Definition print_results (results : pydict) : M console unit :=
  success <- getitem results "success" ;;
  if negb (truthy success) then
    print (text_failed
           ++ py_str (get_default results "error" (PyStr "Unknown error")))
  else
    print (newline ++ string_times "=" 50) ;;;
    print text_header ;;;
    print (string_times "=" 50) ;;;
    url <- getitem results "url" ;;
    print ("URL: " ++ py_str url) ;;;
    size_formatted <- getitem results "size_formatted" ;;
    print ("File size: " ++ py_str size_formatted) ;;;
    duration_seconds <- getitem results "duration_seconds" ;;
    duration_text <- format_2f duration_seconds ;;
    print ("Download time: " ++ duration_text ++ " seconds") ;;;
    speed_formatted <- getitem results "speed_formatted" ;;
    print ("Download speed: " ++ py_str speed_formatted) ;;;
    print (string_times "=" 50) ;;;
    speed_bps <- getitem results "speed_bps" ;;
    speed_mbps <- true_divide speed_bps (1024 * 1024) ;;
    print (speed_band speed_mbps).

(** The parsed command line. *)
Record arguments : Type := {
  url : string;
  timeout : Z;
  multiple : Z
}.

(** The network as it answers each call of the probe: [network_at i] for
    the call number [i] of this run. *)
Variable network_at : nat -> network.

(** [sum(speeds)]: defined on numbers, a [TypeError] otherwise. *)
Fixpoint py_sum (values : list pyval) (total : Q) : M console Q :=
  match values with
  | [] => ret total
  | v :: rest =>
      match as_number v with
      | Some x => py_sum rest (total + x)%Q
      | None => raise (mk_exn OtherException "unsupported operand type(s) for +")
      end
  end.

(** One turn of the loop [for i in range(args.multiple)]. *)
Definition one_test (args : arguments) (i : nat) (speeds : list pyval)
  : M console (list pyval) :=
  print (newline ++ "--- Test " ++ str (Z.of_nat i + 1) ++ "/"
         ++ str (multiple args) ++ " ---") ;;;
  results <- test_image_download_speed (network_at i) (url args) (timeout args) ;;
  success <- getitem results "success" ;;
  if truthy success then
    speed_bps <- getitem results "speed_bps" ;;
    print_results results ;;;
    ret (speeds ++ [speed_bps])%list
  else
    print ("Test " ++ str (Z.of_nat i + 1) ++ " failed: "
           ++ py_str (get_default results "error" (PyStr "Unknown error"))) ;;;
    ret speeds.

(** The loop: the throughputs of the tests that succeeded. *)
Definition run_tests (args : arguments) : M console (list pyval) :=
  Server.for_each (seq 0 (Z.to_nat (multiple args))) [] (one_test args).

(** [main()], after [parser.parse_args()]. *)
Definition main (args : arguments) : M console unit :=
  print text_title ;;;
  print (string_times "=" 50) ;;;
  if Z.ltb 1 (multiple args) then
    print ("Running " ++ str (multiple args) ++ " tests...") ;;;
    speeds <- run_tests args ;;
    match speeds with
    | [] => ret tt
    | _ :: _ =>
        total <- py_sum speeds 0 ;;
        let avg_speed := (total / inject_Z (Z.of_nat (List.length speeds)))%Q in
        print (newline ++ text_average ++ format_speed avg_speed) ;;;
        print (text_completed ++ str (Z.of_nat (List.length speeds)) ++ "/"
               ++ str (multiple args))
    end
  else
    results <- test_image_download_speed (network_at 0) (url args) (timeout args) ;;
    print_results results.

End WithInterpreter.

End Cli.

(* ===================================================================== *)
(** ** Notions used to state further properties of image_speed_test.py *)
(* ===================================================================== *)

Module DownloaderSpec.

Import Formatter Downloader.

(** The number of bytes in a list of chunks. *)
Definition total_length (chunks : list (list Byte.byte)) : Z :=
  fold_right (fun chunk n => len chunk + n) 0 chunks.

(** The byte counts reached after each chunk that is not empty, starting
    from a count. *)
Fixpoint running_totals (chunks : list (list Byte.byte)) (downloaded : Z)
  : list Z :=
  match chunks with
  | [] => []
  | chunk :: rest =>
      match chunk with
      | [] => running_totals rest downloaded
      | _ :: _ =>
          (downloaded + len chunk)
          :: running_totals rest (downloaded + len chunk)
      end
  end.

(** The chunks that carry at least one byte. *)
Definition non_empty_chunks (chunks : list (list Byte.byte))
  : list (list Byte.byte) :=
  filter (fun chunk => match chunk with [] => false | _ :: _ => true end) chunks.

(** What the function learns of the declared size of the body: nothing
    when the header is absent or empty, the integer the header parses to,
    or the exception of the parse. *)
Definition declared_size (net : network) (r : response) : outcome (option Z) :=
  match content_length_header r with
  | Some (String a s) =>
      match py_int net (String a s) with
      | Returned n => Returned (Some n)
      | Raised e => Raised e
      end
  | _ => Returned None
  end.

(** The line that announces the size of the file. *)
Definition file_size_line (total_size : option Z) : string :=
  match total_size with
  | Some n => ("File size: " ++ format_bytes (inject_Z n)) ++ newline
  | None => "File size: Unknown (streaming)" ++ newline
  end.

(** The progress texts written while the chunks arrive, when
    [downloaded] bytes were counted before them. *)
Definition progress_texts_from (total_size : option Z)
    (chunks : list (list Byte.byte)) (downloaded : Z) : list string :=
  match total_size with
  | Some total =>
      if Z.eqb total 0 then []
      else map (fun n => progress_line n total) (running_totals chunks downloaded)
  | None => []
  end.

Definition progress_texts (total_size : option Z)
    (chunks : list (list Byte.byte)) : list string :=
  progress_texts_from total_size chunks 0.

(** A console after further texts were written and the clock was read
    some more times. *)
Definition wrote (texts : list string) (reads : nat) (c : console) : console :=
  {| stdout := (stdout c ++ texts)%list;
     clock_reads := (reads + clock_reads c)%nat |}.

(** The download goes through: the request returns a response with a
    success status, a declared size that is absent or parses, and a body
    that streams to its end. *)
Definition goes_through (net : network) (url : string) (timeout : Z)
    (r : response) (total_size : option Z) : Prop :=
  requests_get net url timeout = Returned r
  /\ status_error r = None
  /\ declared_size net r = Returned total_size
  /\ stream_error r = None.

(** The dictionary returned for a download of [downloaded_bytes] bytes
    that took [duration] seconds. *)
Definition measured_result (url : string) (downloaded_bytes : Z) (duration : Q)
  : pydict :=
  let speed_bps :=
    if Qlt_bool 0 duration
    then PyFloat (inject_Z downloaded_bytes / duration)
    else PyInt 0 in
  let speed_value :=
    match speed_bps with
    | PyFloat x => x
    | _ => 0%Q
    end in
  [ ("url", PyStr url);
    ("size_bytes", PyInt downloaded_bytes);
    ("size_formatted", PyStr (format_bytes (inject_Z downloaded_bytes)));
    ("duration_seconds", PyFloat duration);
    ("speed_bps", speed_bps);
    ("speed_formatted", PyStr (format_speed speed_value));
    ("success", PyBool true) ].

(** Whether a download goes through, as a test on the network. *)
Definition went_through (net : network) (url : string) (timeout : Z) : bool :=
  match requests_get net url timeout with
  | Returned r =>
      match status_error r, declared_size net r, stream_error r with
      | None, Returned _, None => true
      | _, _, _ => false
      end
  | Raised _ => false
  end.

(** The throughput that [measured_result] reports, as a number. *)
Definition throughput (downloaded_bytes : Z) (duration : Q) : Q :=
  if Qlt_bool 0 duration then (inject_Z downloaded_bytes / duration)%Q else 0%Q.

(** The sum of the numbers of a list of values. *)
Definition numbers_total (values : list pyval) : Q :=
  fold_right (fun v total =>
                (match Cli.as_number v with Some x => x | None => 0 end + total)%Q)
    0%Q values.

(** A network for the examples: every url answers 200 with five bytes in
    three chunks, one of them empty, and declares them; the clock gives
    0, 2, 4, ... *)
Definition sample_response : response :=
  {| status_error := None;
     content_length_header := Some "5";
     body_chunks := [[Byte.x00; Byte.x00; Byte.x00]; []; [Byte.x00; Byte.x00]];
     stream_error := None |}.

Definition sample_network : network :=
  {| requests_get := fun _ _ => Returned sample_response;
     py_int := fun text =>
       if String.eqb text "5" then Returned 5
       else Raised (mk_exn OtherException "invalid literal for int()");
     time_time_at := fun n => inject_Z (2 * Z.of_nat n) |}.

Definition empty_console : console := {| stdout := []; clock_reads := O |}.

End DownloaderSpec.

(* ===================================================================== *)
(** * Properties *)
(* ===================================================================== *)

Lemma Qlt_bool_iff (x y : Q) : Qlt_bool x y = true <-> (x < y)%Q.
Proof.
  unfold Qlt_bool. rewrite negb_true_iff. split.
  - intro H. apply Qnot_le_lt. intro Hle.
    apply Qle_bool_iff in Hle. congruence.
  - intro H. destruct (Qle_bool y x) eqn:E; [|reflexivity].
    apply Qle_bool_iff in E. exfalso. exact (Qlt_not_le _ _ H E).
Qed.

Lemma Qlt_bool_false_iff (x y : Q) : Qlt_bool x y = false <-> (y <= x)%Q.
Proof.
  unfold Qlt_bool. rewrite negb_false_iff. apply Qle_bool_iff.
Qed.

Lemma string_app_assoc (a b c : string) : (a ++ b) ++ c = a ++ (b ++ c).
Proof.
  induction a as [|ch a IH]; simpl; [reflexivity | now rewrite IH].
Qed.

(** ** The report formatter *)

Module FormatterFacts.

Import Formatter.

(** The loop returns the scaled value, formatted, with the unit whose
    index is the number of divisions. *)
Lemma format_units_scaled (units : list string) (last : string) (value : Q) :
  format_units units last value
  = format_fixed 2 (scale_value (List.length units) value) ++ " "
      ++ nth (scale_steps (List.length units) value) units last.
Proof.
  revert value. induction units as [|unit rest IH]; intro value; simpl.
  - reflexivity.
  - destruct (Qlt_bool value 1024); [reflexivity | apply IH].
Qed.

(** Appending a suffix to every unit appends it to the result. *)
Lemma format_units_suffix (suffix : string) (units : list string) (last : string)
    (value : Q) :
  format_units (map (fun u => u ++ suffix) units) (last ++ suffix) value
  = format_units units last value ++ suffix.
Proof.
  revert value. induction units as [|unit rest IH]; intro value; simpl.
  - now rewrite !string_app_assoc.
  - destruct (Qlt_bool value 1024); [now rewrite !string_app_assoc | apply IH].
Qed.

Lemma Qdiv_1024 (v : Q) : (v / 1024 == v * (1 # 1024))%Q.
Proof. unfold Qdiv. reflexivity. Qed.

(** The scaled value is the input divided by [1024] once per step. *)
Lemma scale_value_quotient (fuel : nat) (value : Q) :
  (scale_value fuel value
   == value / inject_Z (1024 ^ Z.of_nat (scale_steps fuel value)))%Q.
Proof.
  revert value. induction fuel as [|fuel IH]; intro value; simpl scale_value;
    simpl scale_steps.
  - change (inject_Z (1024 ^ Z.of_nat 0)) with 1%Q. field.
  - destruct (Qlt_bool value 1024).
    + change (inject_Z (1024 ^ Z.of_nat 0)) with 1%Q. field.
    + rewrite IH.
      rewrite Nat2Z.inj_succ, Z.pow_succ_r by lia.
      rewrite inject_Z_mult.
      set (p := inject_Z (1024 ^ Z.of_nat (scale_steps fuel (value / 1024)))).
      assert (Hz : (0 < 1024 ^ Z.of_nat (scale_steps fuel (value / 1024)))%Z)
        by (apply Z.pow_pos_nonneg; lia).
      assert (Hp : ~ (p == 0)%Q).
      { unfold p, Qeq. simpl. lia. }
      change (inject_Z 1024) with 1024%Q.
      field. exact Hp.
Qed.

Lemma scale_steps_le (fuel : nat) (value : Q) :
  (scale_steps fuel value <= fuel)%nat.
Proof.
  revert value. induction fuel as [|fuel IH]; intro value; simpl.
  - lia.
  - destruct (Qlt_bool value 1024); [lia | specialize (IH (value / 1024)%Q); lia].
Qed.

(** Below [1024 ^ (fuel + 1)] the loop stops on a value below [1024]. *)
Lemma scale_value_below (fuel : nat) (value : Q) :
  (0 <= value)%Q ->
  (value < inject_Z (1024 ^ Z.of_nat (S fuel)))%Q ->
  (0 <= scale_value fuel value < 1024)%Q.
Proof.
  revert value. induction fuel as [|fuel IH]; intros value Hpos Hlt.
  - simpl. split; [exact Hpos | exact Hlt].
  - simpl scale_value. destruct (Qlt_bool value 1024) eqn:E.
    + apply Qlt_bool_iff in E. split; assumption.
    + apply IH.
      * rewrite Qdiv_1024. lra.
      * rewrite Nat2Z.inj_succ, Z.pow_succ_r, inject_Z_mult in Hlt by lia.
        change (inject_Z 1024) with 1024%Q in Hlt.
        rewrite Qdiv_1024. lra.
Qed.

(** From [1024 ^ fuel] on, the loop performs all its divisions and the
    value left is the input over [1024 ^ fuel]. *)
Lemma scale_steps_saturate (fuel : nat) (value : Q) :
  (inject_Z (1024 ^ Z.of_nat fuel) <= value)%Q ->
  (fuel = 0%nat \/ (1024 <= value)%Q) ->
  scale_steps fuel value = fuel.
Proof.
  revert value. induction fuel as [|fuel IH]; intros value Hge Hbig.
  - reflexivity.
  - simpl. destruct Hbig as [Hbig|Hbig]; [discriminate|].
    apply Qlt_bool_false_iff in Hbig. rewrite Hbig. f_equal.
    rewrite Nat2Z.inj_succ, Z.pow_succ_r, inject_Z_mult in Hge by lia.
    change (inject_Z 1024) with 1024%Q in Hge.
    assert (Hq : (inject_Z (1024 ^ Z.of_nat fuel) <= value / 1024)%Q)
      by (rewrite Qdiv_1024; lra).
    apply IH; [exact Hq|].
    destruct fuel as [|fuel]; [now left | right].
    rewrite Nat2Z.inj_succ, Z.pow_succ_r, inject_Z_mult in Hq by lia.
    change (inject_Z 1024) with 1024%Q in Hq.
    assert (0 < 1024 ^ Z.of_nat fuel)%Z by (apply Z.pow_pos_nonneg; lia).
    assert (1 <= inject_Z (1024 ^ Z.of_nat fuel))%Q.
    { change 1%Q with (inject_Z 1). rewrite <- Zle_Qle. lia. }
    nra.
Qed.

End FormatterFacts.

Module FormatterClaims.

Import Formatter FormatterFacts.

Lemma scale_value_at_least_1 (fuel : nat) (value : Q) :
  (1 <= value)%Q -> (1 <= scale_value fuel value)%Q.
Proof.
  revert value. induction fuel as [|fuel IH]; intros value H; simpl.
  - exact H.
  - destruct (Qlt_bool value 1024) eqn:E; [exact H|].
    apply Qlt_bool_false_iff in E. apply IH. rewrite Qdiv_1024. lra.
Qed.


(** Rounding to two decimals happens after the comparison with [1024]:
    one byte short of a mebibyte is printed as "1024.00 KB". *)
Lemma format_bytes_rounds_up :
  format_bytes (inject_Z (1024 * 1024 - 1)) = "1024.00 KB".
Proof. vm_compute. reflexivity. Qed.



End FormatterClaims.

(** ** The download probe *)

Module DownloaderFacts.

Import Formatter Downloader.

(** Take apart the sequenced steps of a computation in a hypothesis. *)
Ltac step_in H :=
  match type of H with
  | context [match ?c with _ => _ end] =>
      let E := fresh "E" in destruct c eqn:E; simpl in H
  end.

Lemma download_body_returns (net : network) (url : string) (timeout : Z)
    (c c' : console) (result : pydict) :
  download_body net url timeout c = (Returned result, c') ->
  is_success_result url result.
Proof.
  unfold download_body, bind, time_time, lift_outcome, raise_for_status,
    iter_content, print, ret, raise.
  intro H. simpl in H.
  repeat (step_in H; try discriminate).
  all: injection H as <- <-; unfold is_success_result; eauto 10.
Qed.

(** Consuming chunks only counts and prints: it does not raise. *)
Lemma consume_returns (total_size : option Z) (chunks : list (list Byte.byte)) :
  forall (downloaded_bytes : Z) (c : console),
  exists n c', consume total_size chunks downloaded_bytes c = (Returned n, c').
Proof.
  induction chunks as [|chunk rest IH]; intros downloaded_bytes c; simpl.
  - unfold ret. eauto.
  - destruct chunk as [|b chunk]; [apply IH|].
    unfold bind.
    destruct total_size as [total|]; [destruct (truthy_int total)|];
      unfold print_no_end, ret; apply IH.
Qed.

Lemma get_raises (net : network) (url : string) (timeout : Z) (c : console)
    (e : pyexn) :
  requests_get net url timeout = Raised e ->
  fst (download_body net url timeout c) = Raised e.
Proof.
  intro H. unfold download_body, bind, time_time, lift_outcome.
  rewrite H. reflexivity.
Qed.

Lemma status_raises (net : network) (url : string) (timeout : Z) (c : console)
    (r : response) (e : pyexn) :
  requests_get net url timeout = Returned r ->
  status_error r = Some e ->
  fst (download_body net url timeout c) = Raised e.
Proof.
  intros H Hs. unfold download_body, bind, time_time, lift_outcome,
    raise_for_status.
  rewrite H, Hs. reflexivity.
Qed.

Lemma iter_content_raises (r : response) (e : pyexn) (total_size : option Z)
    (c : console) :
  stream_error r = Some e ->
  exists c', iter_content r total_size c = (Raised e, c').
Proof.
  intro Hs. unfold iter_content, bind.
  destruct (consume_returns total_size (body_chunks r) 0 c) as (n & c' & ->).
  rewrite Hs. unfold raise. eauto.
Qed.

Lemma stream_raises (net : network) (url : string) (timeout : Z) (c : console)
    (r : response) (e : pyexn) :
  requests_get net url timeout = Returned r ->
  stream_error r = Some e ->
  exists e', fst (download_body net url timeout c) = Raised e'.
Proof.
  intros H Hs.
  destruct (download_body net url timeout c) as [[result|e'] c'] eqn:Hb;
    [exfalso | simpl; eauto].
  revert Hb.
  unfold download_body, bind, time_time, lift_outcome, raise_for_status,
    print, ret, raise.
  rewrite H. simpl.
  destruct (status_error r); [discriminate|].
  destruct (truthy_str (content_length_header r)).
  - destruct (content_length_header r) as [text|].
    + destruct (py_int net text) as [total|e0]; [|discriminate].
      match goal with
      | |- context [iter_content r ?t ?c0] =>
          destruct (iter_content_raises r e t c0 Hs) as (c1 & ->)
      end.
      discriminate.
    + match goal with
      | |- context [iter_content r ?t ?c0] =>
          destruct (iter_content_raises r e t c0 Hs) as (c1 & ->)
      end.
      discriminate.
  - match goal with
    | |- context [iter_content r ?t ?c0] =>
        destruct (iter_content_raises r e t c0 Hs) as (c1 & ->)
    end.
    discriminate.
Qed.

End DownloaderFacts.

Module DownloaderClaims.

Import Formatter Downloader DownloaderFacts.

(** The function is the [try] statement run after the banner. *)
Lemma test_image_download_speed_unfold (net : network) (url : string)
    (timeout : Z) (c : console) :
  test_image_download_speed net url timeout c
  = try_except (download_body net url timeout)
      (fun e =>
         print ("Error downloading image: " ++ exn_str e) ;;;
         ret (failure_result url e))
      (fun e =>
         print ("Unexpected error: " ++ exn_str e) ;;;
         ret (failure_result url e))
      (after_banner url c).
Proof.
  unfold test_image_download_speed, bind, print, after_banner. simpl.
  rewrite <- app_assoc. reflexivity.
Qed.

(** Whatever the [try] block does, the function returns a dictionary. *)
Lemma try_block_handled (net : network) (url : string) (timeout : Z)
    (c : console) :
  exists result c',
    test_image_download_speed net url timeout c = (Returned result, c')
    /\ match fst (download_body net url timeout (after_banner url c)) with
       | Returned r => result = r
       | Raised e => result = failure_result url e
       end.
Proof.
  rewrite test_image_download_speed_unfold. unfold try_except.
  destruct (download_body net url timeout (after_banner url c))
    as [[r|e] c1]; simpl.
  - eauto.
  - destruct (exn_class_of e); unfold bind, print, ret; simpl; eauto.
Qed.


End DownloaderClaims.

(** ** The image server *)

Module ServerFacts.

Import Server.

(** *** The quality search *)

(** One turn of the [while True] loop. *)
Lemma quality_search_unfold (env : environment) (img : image)
    (size_kb quality : Z) (w : world) :
  quality_search env img size_kb quality w
  = match save env img quality w with
    | (Raised e, w') => (Raised e, w')
    | (Returned img_bytes, w') =>
        if within_target img_bytes size_kb
        then (Returned (img_bytes, quality), w')
        else if Z.ltb (quality - 5) 10
             then (Returned (img_bytes, quality - 5), w')
             else quality_search env img size_kb (quality - 5) w'
    end.
Proof.
  simp quality_search.
  destruct (save env img quality w) as [[img_bytes|e] w']; simpl;
    [|reflexivity].
  destruct (within_target img_bytes size_kb); simpl; [reflexivity|].
  destruct (Z_lt_dec (quality - 5) 10) as [Hlt|Hge]; simpl.
  - apply Z.ltb_lt in Hlt. now rewrite Hlt.
  - apply Z.nlt_ge, Z.ltb_ge in Hge. now rewrite Hge.
Qed.


Lemma countdown_snoc (quality : Z) (n : nat) :
  countdown quality (S n) = (countdown quality n ++ [quality - 5 * Z.of_nat n])%list.
Proof.
  revert quality. induction n as [|n IH]; intro quality.
  - simpl. f_equal. lia.
  - change (countdown quality (S (S n)))
      with (quality :: countdown (quality - 5) (S n)).
    rewrite IH.
    replace (quality - 5 - 5 * Z.of_nat n) with (quality - 5 * Z.of_nat (S n))
      by lia.
    reflexivity.
Qed.

Lemma countdown_length (quality : Z) (n : nat) :
  List.length (countdown quality n) = n.
Proof.
  revert quality. induction n as [|n IH]; intro quality; simpl;
    [reflexivity | now rewrite IH].
Qed.

(** What a run of the loop entered at [quality] amounts to: it encodes
    at [quality], [quality - 5], ... and stops at the first quality whose
    encoding raises or is within the target, or with the first quality
    for which the next one would be below [10]. *)
Lemma quality_search_spec (env : environment) (img : image) (size_kb : Z)
    (n : nat) :
  forall (quality : Z) (w : world) (o : outcome (list Byte.byte * Z)) (w' : world),
  quality < 15 + 5 * Z.of_nat n ->
  quality_search env img size_kb quality w = (o, w') ->
  exists (failed : list Z) (last : Z),
    (List.length failed <= n)%nat
    /\ countdown quality (S (List.length failed)) = (failed ++ [last])%list
    /\ Forall (fun q => exists b, jpeg_save (pil env) img q = Returned b
                                 /\ within_target b size_kb = false) failed
    /\ pil_calls w' = (pil_calls w ++ saves_of img (failed ++ [last]))%list
    /\ timing_data w' = timing_data w
    /\ random_draws w' = random_draws w
    /\ clock_reads w' = clock_reads w
    /\ match o with
       | Raised e => jpeg_save (pil env) img last = Raised e
       | Returned (img_bytes, exit_quality) =>
           jpeg_save (pil env) img last = Returned img_bytes
           /\ ((within_target img_bytes size_kb = true /\ exit_quality = last)
               \/ (within_target img_bytes size_kb = false
                   /\ exit_quality = last - 5 /\ exit_quality < 10))
       end.
Proof.
  induction n as [|n IH]; intros quality w o w' Hq Hrun;
    rewrite quality_search_unfold in Hrun; unfold save in Hrun;
    destruct (jpeg_save (pil env) img quality) as [img_bytes|e] eqn:Hsave.
  all: try (injection Hrun as <- <-; exists [], quality; simpl;
            repeat split; auto using Forall_nil; lia).
  all: destruct (within_target img_bytes size_kb) eqn:Hfit.
  all: try (injection Hrun as <- <-; exists [], quality; simpl;
            repeat split; auto using Forall_nil; lia).
  all: destruct (Z.ltb (quality - 5) 10) eqn:Hfloor.
  all: try (injection Hrun as <- <-; exists [], quality; simpl;
            apply Z.ltb_lt in Hfloor;
            repeat split; auto using Forall_nil; try lia;
            right; repeat split; auto; lia).
  - apply Z.ltb_ge in Hfloor. lia.
  - apply Z.ltb_ge in Hfloor.
    apply IH in Hrun; [|lia].
    destruct Hrun as (failed & last & Hlen & Hcount & Hfailed & Hcalls & Hlog
                      & Hrand & Hclock & Hout).
    exists (quality :: failed), last. simpl.
    split; [lia|]. split; [now rewrite <- Hcount|].
    split; [constructor; eauto|].
    split; [rewrite Hcalls; simpl; now rewrite <- app_assoc|].
    auto.
Qed.


(** *** Painting and encoding *)

Lemma bind_returned {S A B : Type} (c : M S A) (k : A -> M S B) (s s' : S)
    (a : A) :
  c s = (Returned a, s') -> bind c k s = k a s'.
Proof. intro H. unfold bind. now rewrite H. Qed.

Lemma bind_raised {S A B : Type} (c : M S A) (k : A -> M S B) (s s' : S)
    (e : pyexn) :
  c s = (Raised e, s') -> bind c k s = (Raised e, s').
Proof. intro H. unfold bind. now rewrite H. Qed.

(** A loop whose body returns and keeps an invariant returns and keeps it. *)
Lemma for_each_preserves {S A B : Type} (I : B -> S -> Prop) (xs : list A)
    (body : A -> B -> M S B) :
  (forall x acc s, I acc s ->
     exists acc' s', body x acc s = (Returned acc', s') /\ I acc' s') ->
  forall acc s, I acc s ->
    exists acc' s', for_each xs acc body s = (Returned acc', s') /\ I acc' s'.
Proof.
  intro Hbody. induction xs as [|x rest IH]; intros acc s HI; simpl.
  - unfold ret. eauto.
  - unfold bind.
    destruct (Hbody x acc s HI) as (acc1 & s1 & -> & HI1).
    apply IH. exact HI1.
Qed.

(** Drawing one square keeps the size of the image and touches only the
    random generator. *)
Lemma square_preserves (env : environment) (width height : Z) (w0 : world)
    (i j : Z) (img : image) (w : world) :
  drawing width height w0 img w ->
  exists img' w',
    (r <- randint env ;;
     g <- randint env ;;
     b <- randint env ;;
     ret (draw img (Rectangle i j (i + 25) (j + 25) (r, g, b)))) w
    = (Returned img', w')
    /\ drawing width height w0 img' w'.
Proof.
  intro H. unfold bind, randint, ret, drawing in *. simpl.
  eexists _, _. split; [reflexivity|]. simpl. exact H.
Qed.

(** [paint_test_image] calls [Image.new] with the requested size first;
    it raises what that call raises and otherwise returns an image of the
    requested size. *)
Lemma paint_spec (env : environment) (width height : Z) (w : world) :
  match image_new_error (pil env) width height with
  | Some e =>
      paint_test_image env width height w
      = (Raised e, log_pil_call (ImageNew width height) w)
  | None =>
      exists img w',
        paint_test_image env width height w = (Returned img, w')
        /\ img_width img = width /\ img_height img = height
        /\ pil_calls w' = (pil_calls w ++ [ImageNew width height])%list
        /\ timing_data w' = timing_data w
        /\ clock_reads w' = clock_reads w
  end.
Proof.
  destruct (image_new_error (pil env) width height) as [e|] eqn:Hnew.
  - unfold paint_test_image. apply bind_raised.
    unfold Image_new. now rewrite Hnew.
  - set (w1 := log_pil_call (ImageNew width height) w).
    set (img0 := {| img_width := width; img_height := height; img_drawn := [] |}).
    assert (Hcanvas : Image_new env width height w = (Returned img0, w1))
      by (unfold Image_new; now rewrite Hnew).
    assert (H0 : drawing width height w1 img0 w1) by (repeat split).
    destruct (for_each_preserves (drawing width height w1) (range width 50)
                (fun i img =>
                   for_each (range height 50) img (fun j img =>
                     r <- randint env ;;
                     g <- randint env ;;
                     b <- randint env ;;
                     ret (draw img (Rectangle i j (i + 25) (j + 25) (r, g, b)))))
                ) with (acc := img0) (s := w1)
      as (img & w' & Hrun & Hw & Hh & Hcalls & Hlog & Hclock).
    + intros i acc s Hacc.
      apply (for_each_preserves (drawing width height w1) (range height 50));
        [|exact Hacc].
      intros j acc' s' Hacc'. apply square_preserves. exact Hacc'.
    + exact H0.
    + unfold paint_test_image.
      rewrite (bind_returned _ _ _ _ _ Hcanvas).
      rewrite (bind_returned _ _ _ _ _ Hrun).
      unfold ret. eexists _, _. split; [reflexivity|].
      simpl. rewrite Hcalls, Hlog, Hclock. repeat split; assumption.
Qed.


(** The three ways through [generate_test_image] once the image is
    painted, and the way out when painting raises. *)
Lemma generate_paint_raises (env : environment) (width height : Z)
    (size_kb : option Z) (w w1 : world) (e : pyexn) :
  paint_test_image env width height w = (Raised e, w1) ->
  generate_test_image env width height size_kb w = (Raised e, w1).
Proof. intro H. unfold generate_test_image. now apply bind_raised. Qed.

Lemma generate_fixed (env : environment) (width height : Z)
    (size_kb : option Z) (w w1 : world) (img : image) :
  size_kb = None \/ size_kb = Some 0 ->
  paint_test_image env width height w = (Returned img, w1) ->
  generate_test_image env width height size_kb w = save env img 85 w1.
Proof.
  intros Hmode H. unfold generate_test_image.
  rewrite (bind_returned _ _ _ _ _ H).
  destruct Hmode as [-> | ->]; reflexivity.
Qed.

Lemma generate_target (env : environment) (width height target : Z)
    (w w1 : world) (img : image) :
  target <> 0 ->
  paint_test_image env width height w = (Returned img, w1) ->
  generate_test_image env width height (Some target) w
  = (found <- quality_search env img target 85 ;; ret (fst found)) w1.
Proof.
  intros Hmode H. unfold generate_test_image.
  rewrite (bind_returned _ _ _ _ _ H).
  apply Z.eqb_neq in Hmode. now rewrite Hmode.
Qed.

(** Generation leaves the log and the clock alone; its Pillow calls are
    [Image.new] at the requested size, then encodings of an image of
    that size. *)
Lemma generate_calls (env : environment) (width height : Z)
    (size_kb : option Z) (w : world) :
  let w' := snd (generate_test_image env width height size_kb w) in
  timing_data w' = timing_data w
  /\ clock_reads w' = clock_reads w
  /\ exists qualities,
       pil_calls w'
       = (pil_calls w ++ ImageNew width height
            :: map (ImageSave width height) qualities)%list.
Proof.
  pose proof (paint_spec env width height w) as Hpaint.
  destruct (image_new_error (pil env) width height) as [e|].
  - rewrite (generate_paint_raises _ _ _ _ _ _ _ Hpaint). simpl.
    repeat split. exists []. reflexivity.
  - destruct Hpaint as (img & w1 & Hpaint & Hw & Hh & Hcalls & Hlog & Hclock).
    assert (Hfixed :
      let w' := snd (save env img 85 w1) in
      timing_data w' = timing_data w /\ clock_reads w' = clock_reads w
      /\ exists qualities,
           pil_calls w'
           = (pil_calls w ++ ImageNew width height
                :: map (ImageSave width height) qualities)%list).
    { simpl. repeat split; auto. exists [85].
      rewrite Hcalls, Hw, Hh, <- app_assoc. reflexivity. }
    destruct size_kb as [target|];
      [destruct (Z.eq_dec target 0) as [->|Hne]|].
    + rewrite (generate_fixed _ _ _ _ _ _ _ (or_intror eq_refl) Hpaint).
      exact Hfixed.
    + rewrite (generate_target _ _ _ _ _ _ _ Hne Hpaint). unfold bind.
      destruct (quality_search env img target 85 w1) as [o w2] eqn:Hrun.
      destruct (quality_search_spec env img target 15 85 w1 o w2
                  ltac:(lia) Hrun)
        as (failed & last & _ & _ & _ & Hc & Hl & _ & Hk & _).
      assert (Hgoal :
        timing_data w2 = timing_data w /\ clock_reads w2 = clock_reads w
        /\ exists qualities,
             pil_calls w2
             = (pil_calls w ++ ImageNew width height
                  :: map (ImageSave width height) qualities)%list).
      { repeat split; try congruence. exists (failed ++ [last])%list.
        rewrite Hc, Hcalls. unfold saves_of. rewrite Hw, Hh, <- app_assoc.
        reflexivity. }
      destruct o as [[img_bytes q]|e]; exact Hgoal.
    + rewrite (generate_fixed _ _ _ _ _ _ _ (or_introl eq_refl) Hpaint).
      exact Hfixed.
Qed.

(** *** Recording an observation *)

(** The statements that follow the construction of [request_data] in both
    image handlers append it and evict the oldest entry past 100. *)
Lemma record_appends {A : Type} (request : request_data) (answer : A)
    (w : world) :
  (timing_data_append request ;;;
   n <- timing_data_len ;;
   (if Z.ltb 100 n then timing_data_pop_0 ;;; ret tt else ret tt) ;;;
   ret answer) w
  = (Returned answer, set_timing_data (appended (timing_data w) request) w).
Proof.
  unfold bind, timing_data_append, timing_data_len, timing_data_pop_0, ret,
    appended. simpl.
  destruct (Z.ltb 100 (len (timing_data w ++ [request]))); [|reflexivity].
  destruct (timing_data w) as [|oldest rest]; reflexivity.
Qed.


(** [serve_image], by the outcome of the generation. *)
Lemma serve_image_unfold (env : environment) (request : flask_request)
    (width height : Z) (w : world) :
  serve_image env request width height w
  = match generate_test_image env width height None (snd (time_time env w)) with
    | (Raised e, w1) => (Raised e, w1)
    | (Returned img_bytes, w1) =>
        let observation :=
          {| timestamp := time_time_at env (clock_reads w1);
             client_ip := client_ip_of request;
             user_agent := user_agent_of request;
             image_size := len img_bytes;
             label := Dimensions (str width ++ "x" ++ str height);
             start_time := time_time_at env (clock_reads w) |} in
        (Returned (send_file img_bytes
                     ("test_image_" ++ str width ++ "x" ++ str height ++ ".jpg")),
         set_timing_data (appended (timing_data w1) observation)
           (snd (time_time env w1)))
    end.
Proof.
  unfold serve_image.
  rewrite (bind_returned (time_time env) _ w (snd (time_time env w))
             (time_time_at env (clock_reads w)) eq_refl).
  destruct (generate_test_image env width height None (snd (time_time env w)))
    as [[img_bytes|e] w1] eqn:Hgen.
  - rewrite (bind_returned _ _ _ _ _ Hgen).
    rewrite (bind_returned (time_time env) _ w1 (snd (time_time env w1))
               (time_time_at env (clock_reads w1)) eq_refl).
    cbv zeta. rewrite record_appends. reflexivity.
  - now rewrite (bind_raised _ _ _ _ _ Hgen).
Qed.

(** [serve_sized_image], by the outcome of the generation. *)
Lemma serve_sized_image_unfold (env : environment) (request : flask_request)
    (size_kb : Z) (w : world) :
  serve_sized_image env request size_kb w
  = match generate_test_image env default_width default_height (Some size_kb)
            (snd (time_time env w)) with
    | (Raised e, w1) => (Raised e, w1)
    | (Returned img_bytes, w1) =>
        let observation :=
          {| timestamp := time_time_at env (clock_reads w1);
             client_ip := client_ip_of request;
             user_agent := user_agent_of request;
             image_size := len img_bytes;
             label := TargetSizeKb size_kb;
             start_time := time_time_at env (clock_reads w) |} in
        (Returned (send_file img_bytes ("test_image_" ++ str size_kb ++ "kb.jpg")),
         set_timing_data (appended (timing_data w1) observation)
           (snd (time_time env w1)))
    end.
Proof.
  unfold serve_sized_image.
  rewrite (bind_returned (time_time env) _ w (snd (time_time env w))
             (time_time_at env (clock_reads w)) eq_refl).
  destruct (generate_test_image env default_width default_height (Some size_kb)
              (snd (time_time env w)))
    as [[img_bytes|e] w1] eqn:Hgen.
  - rewrite (bind_returned _ _ _ _ _ Hgen).
    rewrite (bind_returned (time_time env) _ w1 (snd (time_time env w1))
               (time_time_at env (clock_reads w1)) eq_refl).
    cbv zeta. rewrite record_appends. reflexivity.
  - now rewrite (bind_raised _ _ _ _ _ Hgen).
Qed.

(** *** The log as a list *)

Lemma appended_cases (log : list request_data) (request : request_data) :
  appended log request
  = if Nat.ltb (List.length log) 100 then (log ++ [request])%list
    else (tl log ++ [request])%list.
Proof.
  unfold appended, len. rewrite length_app. simpl.
  destruct (Nat.ltb (List.length log) 100) eqn:E.
  - apply Nat.ltb_lt in E.
    destruct (Z.ltb 100 (Z.of_nat (List.length log + 1))) eqn:E';
      [apply Z.ltb_lt in E'; lia | reflexivity].
  - apply Nat.ltb_ge in E.
    destruct (Z.ltb 100 (Z.of_nat (List.length log + 1))) eqn:E';
      [|apply Z.ltb_ge in E'; lia].
    destruct log as [|oldest rest]; [simpl in E; lia | reflexivity].
Qed.

Lemma appended_length (log : list request_data) (request : request_data) :
  List.length (appended log request)
  = if Nat.ltb (List.length log) 100 then S (List.length log)
    else List.length log.
Proof.
  rewrite appended_cases.
  destruct (Nat.ltb (List.length log) 100) eqn:E; rewrite length_app; simpl.
  - lia.
  - apply Nat.ltb_ge in E. destruct log as [|oldest rest]; simpl in *; lia.
Qed.

Lemma lastn_short {A : Type} (n : nat) (l : list A) :
  (List.length l <= n)%nat -> lastn n l = l.
Proof.
  intro H. unfold lastn. replace (List.length l - n)%nat with O by lia.
  reflexivity.
Qed.

Lemma lastn_cons_full {A : Type} (n : nat) (x : A) (l : list A) :
  (n <= List.length l)%nat -> lastn n (x :: l) = lastn n l.
Proof.
  intro H. unfold lastn. simpl List.length.
  replace (S (List.length l) - n)%nat with (S (List.length l - n)) by lia.
  reflexivity.
Qed.

(** Appending one by one to a log within its bound keeps the last 100
    of everything. *)
Lemma fold_appended (xs log : list request_data) :
  (List.length log <= 100)%nat ->
  fold_left appended xs log = lastn 100 (log ++ xs).
Proof.
  revert log. induction xs as [|x xs IH]; intros log Hlen; simpl.
  - rewrite app_nil_r. symmetry. now apply lastn_short.
  - rewrite IH.
    + rewrite appended_cases.
      destruct (Nat.ltb (List.length log) 100) eqn:E.
      * now rewrite <- app_assoc.
      * apply Nat.ltb_ge in E.
        destruct log as [|oldest rest]; [simpl in E; lia|].
        simpl tl. rewrite <- app_assoc. simpl.
        symmetry. apply lastn_cons_full.
        rewrite length_app. simpl in *. lia.
    + rewrite appended_length.
      destruct (Nat.ltb (List.length log) 100) eqn:E; [|lia].
      apply Nat.ltb_lt in E. lia.
Qed.

(** What a request does to the log. *)
Lemma handle_log (env : environment) (r : http_request) (w : world) :
  let log' := timing_data (snd (handle env r w)) in
  log' = timing_data w
  \/ (exists request, log' = appended (timing_data w) request)
  \/ log' = [].
Proof.
  destruct r as [request width height|request size_kb| |]; simpl.
  - rewrite serve_image_unfold.
    pose proof (generate_calls env width height None (snd (time_time env w)))
      as (Hlog & _).
    destruct (generate_test_image env width height None (snd (time_time env w)))
      as [[img_bytes|e] w1]; simpl in *.
    + right. left. rewrite Hlog. eauto.
    + left. exact Hlog.
  - rewrite serve_sized_image_unfold.
    pose proof (generate_calls env default_width default_height (Some size_kb)
                  (snd (time_time env w))) as (Hlog & _).
    destruct (generate_test_image env default_width default_height
                (Some size_kb) (snd (time_time env w)))
      as [[img_bytes|e] w1]; simpl in *.
    + right. left. rewrite Hlog. eauto.
    + left. exact Hlog.
  - left. unfold get_stats. destruct (timing_data w) eqn:E; simpl; exact E.
  - right. right. reflexivity.
Qed.

End ServerFacts.

Module EncoderClaims.

Import Server ServerFacts.

(** From [85] the loop has room for sixteen qualities, and the sixteenth
    is [10]. *)
Lemma countdown_85_floor (failed : list Z) (last : Z) :
  (List.length failed <= 15)%nat ->
  countdown 85 (S (List.length failed)) = (failed ++ [last])%list ->
  last - 5 < 10 ->
  (failed ++ [last])%list = countdown 85 16 /\ last = 10.
Proof.
  intros Hlen Hcount Hfloor.
  pose proof Hcount as Hsnoc. rewrite countdown_snoc in Hsnoc.
  apply app_inj_tail in Hsnoc as [_ Hlast].
  assert (List.length failed = 15%nat) by lia.
  split; [|lia].
  rewrite <- Hcount. now replace (S (List.length failed)) with 16%nat by lia.
Qed.

(** The acceptance test, as an inequality on the byte length. *)
Lemma within_target_bytes (img_bytes : list Byte.byte) (size_kb : Z) :
  within_target img_bytes size_kb = true
  <-> (inject_Z (len img_bytes) <= inject_Z size_kb * (11 # 10) * 1024)%Q.
Proof.
  unfold within_target. rewrite Qle_bool_iff.
  assert (H : (inject_Z (len img_bytes) / 1024
               == inject_Z (len img_bytes) * (1 # 1024))%Q)
    by (unfold Qdiv; reflexivity).
  rewrite H. split; intro; lra.
Qed.




(** Cross-check of the rational model of the acceptance test: for every
    target from 1 to 2048 KB, the binary64 computation accepts the length
    [floor (1126.4 * size_kb)], the largest that [within_target] accepts
    (see [within_target_bytes]), and rejects the next one. *)
Lemma binary64_threshold_agrees :
  forallb (fun size_kb =>
             let largest := 11264 * size_kb / 10 in
             within_target_binary64 largest size_kb
             && negb (within_target_binary64 (largest + 1) size_kb))
          (map Z.of_nat (seq 1 2048))
  = true.
Proof. vm_compute. reflexivity. Qed.

End EncoderClaims.

Module ServerClaims.

Import Server ServerFacts.

(** *** The transfer log *)

Lemma serve_log_bounded (env : environment) (requests : list http_request) :
  forall w : world,
    (List.length (timing_data w) <= 100)%nat ->
    (List.length (timing_data (serve env requests w)) <= 100)%nat.
Proof.
  induction requests as [|r rest IH]; intros w Hw; simpl; [exact Hw|].
  apply IH.
  destruct (handle_log env r w) as [-> | [[request ->] | ->]].
  - exact Hw.
  - rewrite appended_length.
    destruct (Nat.ltb (List.length (timing_data w)) 100) eqn:E; [|lia].
    apply Nat.ltb_lt in E. lia.
  - simpl. lia.
Qed.

Lemma lastn_length {A : Type} (n : nat) (l : list A) :
  List.length (lastn n l) = Nat.min (List.length l) n.
Proof. unfold lastn. rewrite length_skipn. lia. Qed.


(** *** Statistics *)

(** C6: on an empty log [/stats] answers with the "No requests yet"
    dictionary.  That dictionary has a [message] and none of the
    aggregate keys [total_data_served], [average_image_size] and
    [recent_requests], so it differs from every aggregate answer, the
    zero-filled one included; an aggregate answer on the other hand has
    no [message].  [/clear-stats] empties the log, so [/stats] right
    after it gives the "No requests yet" answer. *)
Theorem empty_log_no_data :
  (forall w : world,
     get_stats (set_timing_data [] w)
     = (Returned no_requests_yet, set_timing_data [] w))
  /\ (forall w : world, timing_data (snd (clear_stats w)) = [])
  /\ (forall w : world,
        fst (get_stats (snd (clear_stats w))) = Returned no_requests_yet)
  /\ (forall (env : environment) (w : world),
        fst (handle env GetStats (snd (handle env GetClearStats w)))
        = Json no_requests_yet)
  /\ (field no_requests_yet "message" = Some (Scalar (PyStr "No requests yet"))
      /\ field no_requests_yet "total_data_served" = None
      /\ field no_requests_yet "average_image_size" = None
      /\ field no_requests_yet "recent_requests" = None)
  /\ (forall (total_requests total_size : Z) (recent : list request_data),
        no_requests_yet <> stats_response total_requests total_size recent
        /\ field (stats_response total_requests total_size recent) "message"
           = None)
  /\ (forall (w : world) (first : request_data) (rest : list request_data),
        fst (get_stats (set_timing_data (first :: rest) w))
        = Returned (stats_response (len (first :: rest))
                      (sum_image_size (first :: rest))
                      (last_10 (first :: rest)))).
Proof.
  repeat split; try reflexivity.
  intro H. discriminate H.
Qed.

(** *** The two image routes *)

(** C10: [serve_sized_image] always has the canvas allocated at
    1920x1080 and encodes images of that size only, whatever the target
    size, the request and the state of the server. *)
Theorem sized_image_canvas_fixed (env : environment) (request : flask_request)
    (size_kb : Z) (w : world) :
  exists qualities : list Z,
    pil_calls (snd (serve_sized_image env request size_kb w))
    = (pil_calls w ++ ImageNew 1920 1080
         :: map (ImageSave 1920 1080) qualities)%list.
Proof.
  rewrite serve_sized_image_unfold.
  pose proof (generate_calls env default_width default_height (Some size_kb)
                (snd (time_time env w))) as (_ & _ & qualities & Hcalls).
  exists qualities.
  destruct (generate_test_image env default_width default_height (Some size_kb)
              (snd (time_time env w))) as [[img_bytes|e] w1];
    simpl in *; exact Hcalls.
Qed.


(** C5, as stated, fails: with 100 entries in the log, a valid request
    for 1920x1080 is served and recorded, and the log still has 100
    entries, not 101. *)
Lemma full_log_count_unchanged :
  let w := set_timing_data (repeat (observation 1) 100) initial_world in
  let w' := snd (serve_image sample_environment sample_request 1920 1080 w) in
  len (timing_data w) = 100
  /\ len (timing_data w') = 100
  /\ len (timing_data w') <> len (timing_data w) + 1.
Proof. vm_compute. repeat split; discriminate. Qed.

(** C5, amended: when width and height are strictly positive and Pillow
    serves the request, [serve_image] answers with a payload of at least
    one byte and records one observation of it (its size, its
    "{width}x{height}" label) at the tail of the log, dropping the head
    when that makes more than 100.  The count goes up by exactly one when
    the log held fewer than 100 entries and stays the same when it held
    100. *)
Theorem serve_image_records (env : environment) (request : flask_request)
    (width height : Z) (w : world) :
  0 < width -> 0 < height ->
  pillow_accepts env width height ->
  exists (payload : list Byte.byte) (w' : world) (recorded : request_data),
    serve_image env request width height w
    = (Returned (send_file payload
                   ("test_image_" ++ str width ++ "x" ++ str height ++ ".jpg")),
       w')
    /\ 0 < len payload
    /\ timing_data w' = appended (timing_data w) recorded
    /\ image_size recorded = len payload
    /\ label recorded = Dimensions (str width ++ "x" ++ str height)
    /\ List.length (timing_data w')
       = (if Nat.ltb (List.length (timing_data w)) 100
          then S (List.length (timing_data w))
          else List.length (timing_data w)).
Proof.
  intros _ _ [Hnew Hsave].
  rewrite serve_image_unfold.
  set (w0 := snd (time_time env w)).
  pose proof (paint_spec env width height w0) as Hpaint. rewrite Hnew in Hpaint.
  destruct Hpaint as (img & w1 & Hpaint & Hw & Hh & _ & Hlog & _).
  rewrite (generate_fixed env width height None w0 w1 img
             (or_introl eq_refl) Hpaint).
  unfold save.
  destruct (Hsave img 85 Hw Hh) as (payload & -> & Hlen).
  cbv zeta.
  eexists payload, _, _. split; [reflexivity|].
  split; [exact Hlen|].
  assert (Hsame : timing_data
                    (log_pil_call (ImageSave (img_width img) (img_height img) 85)
                       w1) = timing_data w)
    by (simpl; rewrite Hlog; reflexivity).
  rewrite Hsame.
  split; [reflexivity|]. split; [reflexivity|]. split; [reflexivity|].
  cbn [timing_data set_timing_data]. apply appended_length.
Qed.

Lemma serve_image_records_witness :
  0 < 1920 /\ 0 < 1080
  /\ pillow_accepts sample_environment 1920 1080
  /\ exists (payload : list Byte.byte) (w' : world) (recorded : request_data),
       serve_image sample_environment sample_request 1920 1080 initial_world
       = (Returned (send_file payload
                      ("test_image_" ++ str 1920 ++ "x" ++ str 1080 ++ ".jpg")),
          w')
       /\ 0 < len payload
       /\ timing_data w' = appended (timing_data initial_world) recorded
       /\ image_size recorded = len payload
       /\ label recorded = Dimensions (str 1920 ++ "x" ++ str 1080)
       /\ List.length (timing_data w')
          = (if Nat.ltb (List.length (timing_data initial_world)) 100
             then S (List.length (timing_data initial_world))
             else List.length (timing_data initial_world)).
Proof.
  assert (Hw : 0 < 1920) by lia.
  assert (Hh : 0 < 1080) by lia.
  assert (Hpil : pillow_accepts sample_environment 1920 1080).
  { split; [reflexivity|].
    intros img quality Hiw Hih.
    cbn [sample_environment pil sample_pillow jpeg_save].
    rewrite Hiw, Hih.
    change (Z.ltb 0 1920 && Z.ltb 0 1080) with true. cbv iota.
    eexists. split; [reflexivity|].
    unfold len. rewrite repeat_length. lia. }
  split; [exact Hw|]. split; [exact Hh|]. split; [exact Hpil|].
  exact (serve_image_records sample_environment sample_request 1920 1080
           initial_world Hw Hh Hpil).
Defined.



End ServerClaims.

(** ** Concurrent requests *)

Module InterleavingClaims.

Import Server Interleaving.

(** C9, as stated, fails: nothing serializes the handlers.  With one
    observation of 10 bytes in the log, a [/stats] request reads the
    length (1), an image request then appends an observation of 20 bytes,
    and [/stats] goes on to sum and slice the list: it answers with one
    request, 30 bytes served and two recent requests, which is the view of
    no state of the log. *)
Lemma stats_races_with_append :
  let p := run [0; 0; 1; 0; 0]%nat
             ([start Stats; start (Append (observation 20))], [observation 10]) in
  nth_error (fst p) 0
  = Some (Finished (Some (stats_response 1 30
                            [observation 10; observation 20])))
  /\ snd p = [observation 10; observation 20]
  /\ ~ consistent_view (stats_response 1 30 [observation 10; observation 20]).
Proof.
  split; [reflexivity|]. split; [reflexivity|].
  intros [log H]. unfold get_stats in H. simpl in H.
  destruct log as [|x [|y rest]]; simpl in H.
  - discriminate H.
  - unfold stats_response in H. simpl in H. discriminate H.
  - unfold stats_response in H. injection H as Hlen _.
    unfold len in Hlen. simpl List.length in Hlen. lia.
Qed.

(** A [/clear-stats] request between the emptiness test and the reads of
    a [/stats] request makes the latter answer with the zero-filled
    aggregate, which no state of the log produces either. *)
Lemma stats_races_with_clear :
  let p := run [0; 1; 0; 0; 0]%nat
             ([start Stats; start Clear], [observation 10]) in
  nth_error (fst p) 0 = Some (Finished (Some (stats_response 0 0 [])))
  /\ snd p = []
  /\ ~ consistent_view (stats_response 0 0 []).
Proof.
  split; [reflexivity|]. split; [reflexivity|].
  intros [log H]. unfold get_stats in H. simpl in H.
  destruct log as [|x rest]; simpl in H.
  - discriminate H.
  - unfold stats_response in H. injection H as Hlen _.
    unfold len in Hlen. simpl List.length in Hlen. lia.
Qed.

Lemma steps_sequential (h : handler) (log : list request_data) :
  steps 4 (start h) log = sequential h log.
Proof.
  destruct h as [request| |]; simpl.
  - unfold appended.
    destruct (Z.ltb 100 (len (log ++ [request]))); [|reflexivity].
    destruct log; reflexivity.
  - unfold get_stats. simpl. destruct log; reflexivity.
  - reflexivity.
Qed.

Lemma replace_nth_middle {A : Type} (before after : list A) (x y : A) :
  replace_nth (List.length before) y (before ++ x :: after)
  = (before ++ y :: after)%list.
Proof.
  induction before as [|b before IH]; simpl; [reflexivity | now rewrite IH].
Qed.

Lemma nth_error_middle {A : Type} (before after : list A) (x : A) :
  nth_error (before ++ x :: after) (List.length before) = Some x.
Proof.
  induction before as [|b before IH]; simpl; [reflexivity | exact IH].
Qed.

(** Scheduling the same thread [n] times in a row runs [n] of its
    statements. *)
Lemma run_repeat (n : nat) (before after : list thread) :
  forall (t : thread) (log : list request_data),
  run (repeat (List.length before) n) ((before ++ t :: after)%list, log)
  = ((before ++ fst (steps n t log) :: after)%list, snd (steps n t log)).
Proof.
  induction n as [|n IH]; intros t log; simpl; [reflexivity|].
  unfold run in *. unfold schedule_one at 2. simpl fst. simpl snd.
  rewrite nth_error_middle.
  destruct (step t log) as [t' log'] eqn:Hstep.
  rewrite replace_nth_middle. apply IH.
Qed.

Lemma run_app (first second : list nat) (p : pool) :
  run (first ++ second) p = run second (run first p).
Proof. unfold run. apply fold_left_app. Qed.

Lemma serial_schedule_succ (first count : nat) :
  serial_schedule first (S count)
  = (repeat first 4 ++ serial_schedule (S first) count)%list.
Proof. reflexivity. Qed.

Lemma run_serial (handlers : list handler) :
  forall (finished : list thread) (log : list request_data),
  run (serial_schedule (List.length finished) (List.length handlers))
    ((finished ++ map start handlers)%list, log)
  = ((finished ++ fst (serial_run handlers log))%list,
     snd (serial_run handlers log)).
Proof.
  induction handlers as [|h rest IH]; intros finished log.
  - reflexivity.
  - simpl List.length. rewrite serial_schedule_succ, run_app.
    simpl map. rewrite run_repeat, steps_sequential.
    simpl serial_run.
    destruct (sequential h log) as [t log'].
    destruct (serial_run rest log') as [ts log''] eqn:Hrest.
    simpl fst. simpl snd.
    specialize (IH (finished ++ [t])%list log').
    rewrite length_app in IH. simpl List.length in IH.
    replace (List.length finished + 1)%nat with (S (List.length finished))
      in IH by lia.
    rewrite <- app_assoc in IH. simpl app in IH.
    rewrite IH, Hrest. simpl.
    now rewrite <- app_assoc.
Qed.

(** C9, amended: the handlers take no lock, and what holds is this: a
    handler that runs its statements with no other request in between
    has exactly the effect of the sequential operation (append at the
    tail with eviction of the head past 100, the aggregate of the one
    current state of the log, or the reset to the empty list); and so do
    any number of handlers that run one after the other. *)
Theorem uninterrupted_handlers_sequential :
  (forall (h : handler) (log : list request_data),
     steps 4 (start h) log = sequential h log)
  /\ (forall (handlers : list handler) (log : list request_data),
        run (serial_schedule 0 (List.length handlers)) (map start handlers, log)
        = serial_run handlers log).
Proof.
  split; [exact steps_sequential|].
  intros handlers log.
  pose proof (run_serial handlers [] log) as H. simpl in H.
  rewrite H. destruct (serial_run handlers log); reflexivity.
Qed.

End InterleavingClaims.

(* ===================================================================== *)
(** * Further properties of the code *)
(* ===================================================================== *)

(** ** The image server: painting *)

Module PaintingProperties.

Import Server ServerFacts ServerSpec.

Lemma squares_app (env : environment) (first_cells more_cells : list (Z * Z)) :
  forall first : nat,
  squares env (first_cells ++ more_cells) first
  = (squares env first_cells first
     ++ squares env more_cells (3 * List.length first_cells + first))%list.
Proof.
  induction first_cells as [|[i j] rest IH]; intro first.
  - reflexivity.
  - cbn [app squares]. rewrite IH.
    replace (3 * List.length ((i, j) :: rest) + first)%nat
      with (3 * List.length rest + (3 + first))%nat
      by (cbn [List.length]; lia).
    reflexivity.
Qed.

Lemma drawn_on_nil (img : image) : drawn_on img [] = img.
Proof. destruct img. unfold drawn_on. simpl. now rewrite app_nil_r. Qed.

Lemma drawn_on_app (img : image) (ops more : list draw_op) :
  drawn_on (drawn_on img ops) more = drawn_on img (ops ++ more).
Proof. unfold drawn_on. simpl. now rewrite app_assoc. Qed.

Lemma after_draws_0 (w : world) : after_draws 0 w = w.
Proof. destruct w. reflexivity. Qed.

Lemma after_draws_add (n m : nat) (w : world) :
  after_draws n (after_draws m w) = after_draws (n + m) w.
Proof. unfold after_draws. simpl. f_equal. lia. Qed.

(** The inner loop: one column of squares. *)
Lemma column_painted (env : environment) (i : Z) (js : list Z) :
  forall (img : image) (w : world),
  for_each js img (fun j img =>
    r <- randint env ;;
    g <- randint env ;;
    b <- randint env ;;
    ret (draw img (Rectangle i j (i + 25) (j + 25) (r, g, b)))) w
  = (Returned (drawn_on img (squares env (map (pair i) js) (random_draws w))),
     after_draws (3 * List.length js) w).
Proof.
  induction js as [|j rest IH]; intros img w.
  - simpl. unfold ret. now rewrite drawn_on_nil, after_draws_0.
  - cbn [for_each]. unfold bind at 1.
    unfold bind, randint, ret. cbn [random_draws].
    rewrite IH. cbn [random_draws map squares].
    f_equal.
    + f_equal. unfold draw, drawn_on. cbn. f_equal.
      rewrite <- app_assoc. reflexivity.
    + unfold after_draws. cbn. f_equal. simpl List.length. lia.
Qed.


(** The two nested loops: the whole grid. *)
Lemma grid_painted (env : environment) (columns rows : list Z) :
  forall (img : image) (w : world),
  for_each columns img (fun i img =>
    for_each rows img (fun j img =>
      r <- randint env ;;
      g <- randint env ;;
      b <- randint env ;;
      ret (draw img (Rectangle i j (i + 25) (j + 25) (r, g, b))))) w
  = (Returned (drawn_on img
                 (squares env (list_prod columns rows) (random_draws w))),
     after_draws (3 * List.length (list_prod columns rows)) w).
Proof.
  induction columns as [|i rest IH]; intros img w.
  - simpl. unfold ret. now rewrite drawn_on_nil, after_draws_0.
  - cbn [for_each list_prod].
    rewrite (bind_returned _ _ _ _ _ (column_painted env i rows img w)).
    rewrite IH, drawn_on_app, after_draws_add.
    rewrite squares_app, length_app, length_map.
    cbn [random_draws after_draws].
    replace (3 * List.length (list_prod rest rows) + 3 * List.length rows)%nat
      with (3 * (List.length rows + List.length (list_prod rest rows)))%nat
      by lia.
    reflexivity.
Qed.

Lemma range_members (stop x : Z) :
  In x (range stop 50) -> 0 <= x < stop /\ x mod 50 = 0.
Proof.
  unfold range. rewrite in_map_iff. intros (k & <- & Hk).
  apply in_seq in Hk. destruct Hk as [_ Hk]. simpl in Hk.
  assert (Hpos : 0 < (stop + 50 - 1) / 50) by lia.
  assert (Hdiv : 50 * ((stop + 50 - 1) / 50) <= stop + 50 - 1)
    by (apply Z.mul_div_le; lia).
  split; [lia|]. apply Z.mod_mul. lia.
Qed.

(** X1: when Pillow allocates the canvas, [paint_test_image] returns the
    image of the requested size on which one 25x25 square was drawn per
    cell of the 50-pixel grid, column by column, the colour of each taken
    from three consecutive random draws, followed by the label
    "Speed Test Image - {width}x{height}" at (50, 50).  Every square has
    its corner inside the image, on the grid; there are
    [ceil(width/50) * ceil(height/50)] of them, and nothing but the random
    generator and the allocation is used. *)
Theorem paint_draws_grid (env : environment) (width height : Z) (w : world) :
  image_new_error (pil env) width height = None ->
  paint_test_image env width height w
  = (Returned
       {| img_width := width; img_height := height;
          img_drawn :=
            (squares env (grid_cells width height) (random_draws w)
             ++ [Text 50 50
                   ("Speed Test Image - " ++ str width ++ "x" ++ str height)
                   (default_font (pil env))])%list |},
     after_draws (3 * List.length (grid_cells width height))
       (log_pil_call (ImageNew width height) w))
  /\ List.length (grid_cells width height)
     = (Z.to_nat ((width + 49) / 50) * Z.to_nat ((height + 49) / 50))%nat
  /\ Forall (fun cell =>
               0 <= fst cell < width /\ 0 <= snd cell < height
               /\ fst cell mod 50 = 0 /\ snd cell mod 50 = 0)
       (grid_cells width height).
Proof.
  intro Hnew. split; [|split].
  - unfold paint_test_image.
    assert (Hcanvas :
      Image_new env width height w
      = (Returned {| img_width := width; img_height := height; img_drawn := [] |},
         log_pil_call (ImageNew width height) w))
      by (unfold Image_new; now rewrite Hnew).
    rewrite (bind_returned _ _ _ _ _ Hcanvas).
    rewrite (bind_returned _ _ _ _ _
               (grid_painted env (range width 50) (range height 50) _ _)).
    unfold ret, draw, drawn_on, grid_cells. cbn. reflexivity.
  - unfold grid_cells. rewrite length_prod. unfold range.
    rewrite !length_map, !length_seq.
    replace (width + 50 - 1) with (width + 49) by lia.
    replace (height + 50 - 1) with (height + 49) by lia.
    reflexivity.
  - apply Forall_forall. intros [i j] Hin. unfold grid_cells in Hin.
    apply in_prod_iff in Hin. destruct Hin as [Hi Hj].
    apply range_members in Hi. apply range_members in Hj. simpl. tauto.
Qed.

Lemma paint_draws_grid_witness :
  image_new_error (pil sample_environment) 120 60 = None
  /\ List.length (grid_cells 120 60) = 6%nat
  /\ fst (paint_test_image sample_environment 120 60 initial_world)
     = Returned
         {| img_width := 120; img_height := 60;
            img_drawn :=
              (squares sample_environment (grid_cells 120 60) 0
               ++ [Text 50 50 "Speed Test Image - 120x60" true])%list |}.
Proof.
  assert (H : image_new_error (pil sample_environment) 120 60 = None)
    by reflexivity.
  split; [exact H|].
  destruct (paint_draws_grid sample_environment 120 60 initial_world H)
    as (Hrun & Hcount & _).
  split; [exact Hcount|].
  rewrite Hrun. reflexivity.
Defined.

End PaintingProperties.

(** ** The image server: encoding *)

Module EncodingProperties.

Import Server ServerFacts ServerSpec.

Lemma countdown_In (quality : Z) (n : nat) (q : Z) :
  In q (countdown quality n)
  <-> exists k : nat, (k < n)%nat /\ q = quality - 5 * Z.of_nat k.
Proof.
  revert quality. induction n as [|n IH]; intro quality; cbn [countdown In].
  - split; [tauto | intros (k & Hk & _); lia].
  - rewrite IH. split.
    + intros [Hq | (k & Hk & Hq)].
      * exists O. split; [lia|]. change (Z.of_nat 0) with 0. lia.
      * exists (S k). split; [lia|]. rewrite Nat2Z.inj_succ. lia.
    + intros (k & Hk & Hq). destruct k as [|k].
      * left. change (Z.of_nat 0) with 0 in Hq. lia.
      * right. exists k. split; [lia|]. rewrite Nat2Z.inj_succ in Hq. lia.
Qed.

(** The qualities tried before the last one, and the last one, when the
    loop is entered at [85]. *)
Lemma tried_from_85 (failed : list Z) (final : Z) :
  countdown 85 (S (List.length failed)) = (failed ++ [final])%list ->
  failed = countdown 85 (List.length failed)
  /\ final = 85 - 5 * Z.of_nat (List.length failed).
Proof.
  intro H. rewrite countdown_snoc in H.
  apply app_inj_tail in H as [H1 H2]. split; [now symmetry | now symmetry].
Qed.

(** X3: when the search from quality 85 ends with the target met, the
    quality it ends at is the highest of 85, 80, ..., 10 whose encoding is
    within the target: the encoding returned is the one at that quality,
    and every higher quality was encoded and found too large. *)
Theorem search_returns_first_fit (env : environment) (img : image)
    (size_kb : Z) (w w' : world) (img_bytes : list Byte.byte) (quality : Z) :
  quality_search env img size_kb 85 w = (Returned (img_bytes, quality), w') ->
  within_target img_bytes size_kb = true ->
  In quality (countdown 85 16)
  /\ jpeg_save (pil env) img quality = Returned img_bytes
  /\ forall higher : Z,
       In higher (countdown 85 16) -> quality < higher ->
       exists too_large,
         jpeg_save (pil env) img higher = Returned too_large
         /\ within_target too_large size_kb = false.
Proof.
  intros Hrun Hfit.
  destruct (quality_search_spec env img size_kb 15 85 w _ w' ltac:(lia) Hrun)
    as (failed & final & Hlen & Hcount & Hfailed & _ & _ & _ & _ & Hsave & Hexit).
  destruct Hexit as [[_ ->] | [Hno _]]; [|congruence].
  destruct (tried_from_85 failed final Hcount) as [Hprefix Hfinal].
  split; [|split].
  - apply countdown_In. exists (List.length failed). split; [lia | exact Hfinal].
  - exact Hsave.
  - intros higher Hin Hgt.
    apply countdown_In in Hin. destruct Hin as (k & Hk & ->).
    rewrite Forall_forall in Hfailed. apply Hfailed.
    rewrite Hprefix. apply countdown_In. exists k. split; [lia | reflexivity].
Qed.

Lemma search_returns_first_fit_witness :
  let img := {| img_width := 10; img_height := 10; img_drawn := [] |} in
  let w' := log_pil_call (ImageSave 10 10 65)
              (log_pil_call (ImageSave 10 10 70)
                 (log_pil_call (ImageSave 10 10 75)
                    (log_pil_call (ImageSave 10 10 80)
                       (log_pil_call (ImageSave 10 10 85) initial_world)))) in
  quality_search sample_environment img 1 85 initial_world
  = (Returned (repeat Byte.x00 1104, 65), w')
  /\ within_target (repeat Byte.x00 1104) 1 = true
  /\ In 65 (countdown 85 16)
  /\ jpeg_save (pil sample_environment) img 65 = Returned (repeat Byte.x00 1104).
Proof.
  intros img w'.
  assert (Hrun : quality_search sample_environment img 1 85 initial_world
                 = (Returned (repeat Byte.x00 1104, 65), w'))
    by (vm_compute; reflexivity).
  assert (Hfit : within_target (repeat Byte.x00 1104) 1 = true)
    by (vm_compute; reflexivity).
  split; [exact Hrun|]. split; [exact Hfit|].
  destruct (search_returns_first_fit sample_environment img 1 initial_world w'
              (repeat Byte.x00 1104) 65 Hrun Hfit) as (Hin & Hsave & _).
  split; [exact Hin | exact Hsave].
Defined.

(** When every encoding from 85 down to 10 is too large, the loop makes
    its sixteen attempts and leaves with the encoding at quality 10 and
    the quality at 5. *)
Lemma all_too_large (env : environment) (img : image) (size_kb : Z)
    (w : world) :
  (forall q, In q (countdown 85 16) ->
     exists b, jpeg_save (pil env) img q = Returned b
               /\ within_target b size_kb = false) ->
  exists smallest w',
    jpeg_save (pil env) img 10 = Returned smallest
    /\ quality_search env img size_kb 85 w = (Returned (smallest, 5), w')
    /\ pil_calls w' = (pil_calls w ++ saves_of img (countdown 85 16))%list.
Proof.
  intro Hall.
  destruct (quality_search env img size_kb 85 w) as [o w'] eqn:Hrun.
  destruct (quality_search_spec env img size_kb 15 85 w o w' ltac:(lia) Hrun)
    as (failed & final & Hlen & Hcount & _ & Hcalls & _ & _ & _ & Hout).
  destruct (tried_from_85 failed final Hcount) as [_ Hfinal].
  assert (Hin : In final (countdown 85 16)).
  { apply countdown_In. exists (List.length failed). split; [lia | exact Hfinal]. }
  destruct (Hall final Hin) as (b & Hb & Hno).
  destruct o as [[img_bytes exit_quality]|e]; [|congruence].
  destruct Hout as [Hsave [[Hfit _] | [_ [-> Hfloor]]]]; [congruence|].
  assert (Hfull : List.length failed = 15%nat) by lia.
  assert (Hten : final = 10) by lia.
  rewrite Hten in Hsave.
  exists img_bytes, w'. split; [exact Hsave|].
  split; [f_equal; f_equal; f_equal; lia|].
  rewrite Hcalls, <- Hcount, Hfull. reflexivity.
Qed.

(** X4: best effort.  When the encoder returns at every quality and none
    of the sixteen encodings at 85, 80, ..., 10 is within the target,
    [generate_test_image] does not fail: it returns the encoding at
    quality 10, the last one produced, after exactly those sixteen
    encodings. *)
Theorem overshoot_returns_quality_10 (env : environment)
    (width height size_kb : Z) (w : world) (img : image) (w1 : world) :
  size_kb <> 0 ->
  paint_test_image env width height w = (Returned img, w1) ->
  (forall q, In q (countdown 85 16) ->
     exists b, jpeg_save (pil env) img q = Returned b
               /\ within_target b size_kb = false) ->
  exists smallest w',
    jpeg_save (pil env) img 10 = Returned smallest
    /\ generate_test_image env width height (Some size_kb) w
       = (Returned smallest, w')
    /\ pil_calls w' = (pil_calls w1 ++ saves_of img (countdown 85 16))%list.
Proof.
  intros Hmode Hpaint Hall.
  destruct (all_too_large env img size_kb w1 Hall)
    as (smallest & w' & Hsave & Hrun & Hcalls).
  exists smallest, w'. split; [exact Hsave|]. split; [|exact Hcalls].
  rewrite (generate_target env width height size_kb w w1 img Hmode Hpaint).
  unfold bind. rewrite Hrun. reflexivity.
Qed.

Lemma overshoot_returns_quality_10_witness :
  let img :=
    {| img_width := 120; img_height := 60;
       img_drawn :=
         (squares sample_environment (grid_cells 120 60) 0
          ++ [Text 50 50 "Speed Test Image - 120x60" true])%list |} in
  let w1 := after_draws 18 (log_pil_call (ImageNew 120 60) initial_world) in
  -1 <> 0
  /\ paint_test_image sample_environment 120 60 initial_world
     = (Returned img, w1)
  /\ exists smallest w',
       jpeg_save (pil sample_environment) img 10 = Returned smallest
       /\ generate_test_image sample_environment 120 60 (Some (-1)) initial_world
          = (Returned smallest, w')
       /\ pil_calls w' = (pil_calls w1 ++ saves_of img (countdown 85 16))%list.
Proof.
  intros img w1.
  assert (Hmode : -1 <> 0) by lia.
  assert (Hpaint : paint_test_image sample_environment 120 60 initial_world
                   = (Returned img, w1)) by (vm_compute; reflexivity).
  split; [exact Hmode|]. split; [exact Hpaint|].
  apply (overshoot_returns_quality_10 sample_environment 120 60 (-1)
           initial_world img w1 Hmode Hpaint).
  intros q Hin. cbn [countdown In] in Hin.
  repeat (destruct Hin as [<- | Hin];
          [eexists; split; [reflexivity | vm_compute; reflexivity]|]).
  destruct Hin.
Defined.

End EncodingProperties.

(** ** The image server: the request handlers *)

Module HandlerProperties.

Import Server ServerFacts ServerSpec.

(** When Pillow serves the size, generation returns a payload of at least
    one byte and touches neither the log nor the clock. *)
Lemma generate_returns (env : environment) (width height : Z)
    (size_kb : option Z) (w : world) :
  pillow_accepts env width height ->
  exists payload w',
    generate_test_image env width height size_kb w = (Returned payload, w')
    /\ 0 < len payload
    /\ timing_data w' = timing_data w
    /\ clock_reads w' = clock_reads w.
Proof.
  intros [Hnew Hsave].
  pose proof (generate_calls env width height size_kb w) as (Hlog & Hclock & _).
  pose proof (paint_spec env width height w) as Hpaint. rewrite Hnew in Hpaint.
  destruct Hpaint as (img & w1 & Hpaint & Hw & Hh & _).
  assert (Hfixed : forall mode, mode = None \/ mode = Some 0 ->
            size_kb = mode ->
            exists payload w',
              generate_test_image env width height size_kb w
              = (Returned payload, w') /\ 0 < len payload).
  { intros mode Hmode ->.
    rewrite (generate_fixed env width height mode w w1 img Hmode Hpaint).
    unfold save. destruct (Hsave img 85 Hw Hh) as (b & -> & Hb). eauto. }
  assert (Hsome : exists payload w',
            generate_test_image env width height size_kb w
            = (Returned payload, w') /\ 0 < len payload).
  { destruct size_kb as [target|]; [destruct (Z.eq_dec target 0) as [->|Hne]|].
    - apply (Hfixed (Some 0)); auto.
    - rewrite (generate_target env width height target w w1 img Hne Hpaint).
      unfold bind.
      destruct (quality_search env img target 85 w1) as [o w2] eqn:Hrun.
      destruct (quality_search_spec env img target 15 85 w1 o w2
                  ltac:(lia) Hrun)
        as (failed & final & _ & _ & _ & _ & _ & _ & _ & Hout).
      destruct (Hsave img final Hw Hh) as (b & Hb & Hlen).
      destruct o as [[img_bytes q]|e]; [|congruence].
      destruct Hout as [Hbytes _].
      exists img_bytes, w2. split; [reflexivity|]. simpl. congruence.
    - apply (Hfixed None); auto. }
  destruct Hsome as (payload & w' & Hrun & Hlen).
  rewrite Hrun in Hlog, Hclock. simpl in Hlog, Hclock.
  exists payload, w'. auto.
Qed.


Lemma sample_pillow_accepts (width height : Z) :
  0 < width -> 0 < height -> pillow_accepts sample_environment width height.
Proof.
  intros Hw Hh. split.
  - cbn [sample_environment pil sample_pillow image_new_error].
    destruct (Z.ltb_spec width 0); [lia|].
    destruct (Z.ltb_spec height 0); [lia|]. reflexivity.
  - intros img quality Hiw Hih.
    cbn [sample_environment pil sample_pillow jpeg_save].
    rewrite Hiw, Hih.
    destruct (Z.ltb_spec 0 width); [|lia].
    destruct (Z.ltb_spec 0 height); [|lia]. cbn [andb].
    eexists. split; [reflexivity|].
    unfold len. rewrite repeat_length. lia.
Qed.


(** X2: the dimension route encodes once.  Whatever the request and the
    state, [serve_image] calls Pillow to allocate the canvas at the
    requested size and then, if that succeeded, to encode it exactly once,
    at quality 85.  The body it answers with is that encoding, and when it
    raises, the exception is the one of the allocation or of that
    encoding. *)
Theorem serve_image_encodes_once (env : environment) (request : flask_request)
    (width height : Z) (w : world) :
  pil_calls (snd (serve_image env request width height w))
  = (pil_calls w
     ++ ImageNew width height
        :: match image_new_error (pil env) width height with
           | Some _ => []
           | None => [ImageSave width height 85]
           end)%list
  /\ match fst (serve_image env request width height w) with
     | Returned answer =>
         exists img : image,
           img_width img = width /\ img_height img = height
           /\ jpeg_save (pil env) img 85 = Returned (file_body answer)
     | Raised e =>
         image_new_error (pil env) width height = Some e
         \/ exists img : image,
              img_width img = width /\ img_height img = height
              /\ jpeg_save (pil env) img 85 = Raised e
     end.
Proof.
  rewrite serve_image_unfold.
  set (w0 := snd (time_time env w)).
  pose proof (paint_spec env width height w0) as Hpaint.
  destruct (image_new_error (pil env) width height) as [e|].
  - rewrite (generate_paint_raises _ _ _ None _ _ _ Hpaint). simpl.
    split; [reflexivity | now left].
  - destruct Hpaint as (img & w1 & Hpaint & Hw & Hh & Hcalls & _).
    rewrite (generate_fixed env width height None w0 w1 img
               (or_introl eq_refl) Hpaint).
    unfold save.
    destruct (jpeg_save (pil env) img 85) as [payload|e] eqn:Hsave; cbn.
    + split; [rewrite Hcalls, Hw, Hh, <- app_assoc; reflexivity | eauto].
    + split; [rewrite Hcalls, Hw, Hh, <- app_assoc; reflexivity | eauto].
Qed.

(** X6: a failed request leaves no trace in the log.  When a request is
    answered with a 500, it was one of the two image routes, and the log
    is exactly what it was before the request. *)
Theorem failed_request_leaves_log (env : environment) (r : http_request)
    (w : world) (e : pyexn) :
  fst (handle env r w) = InternalServerError e ->
  timing_data (snd (handle env r w)) = timing_data w
  /\ r <> GetStats /\ r <> GetClearStats.
Proof.
  destruct r as [request width height|request size_kb| |]; simpl.
  - rewrite serve_image_unfold.
    pose proof (generate_calls env width height None (snd (time_time env w)))
      as (Hlog & _).
    destruct (generate_test_image env width height None (snd (time_time env w)))
      as [[img_bytes|e'] w1]; simpl in *; [discriminate|].
    intros _. repeat split; [exact Hlog | discriminate | discriminate].
  - rewrite serve_sized_image_unfold.
    pose proof (generate_calls env default_width default_height (Some size_kb)
                  (snd (time_time env w))) as (Hlog & _).
    destruct (generate_test_image env default_width default_height
                (Some size_kb) (snd (time_time env w)))
      as [[img_bytes|e'] w1]; simpl in *; [discriminate|].
    intros _. repeat split; [exact Hlog | discriminate | discriminate].
  - unfold get_stats. destruct (timing_data w); discriminate.
  - discriminate.
Qed.

Lemma failed_request_leaves_log_witness :
  let w := set_timing_data [observation 7] initial_world in
  let r := GetImage sample_request 0 10 in
  fst (handle sample_environment r w)
  = InternalServerError
      (mk_exn OtherException "cannot write empty image as JPEG")
  /\ timing_data (snd (handle sample_environment r w)) = [observation 7].
Proof.
  intros w r.
  assert (H : fst (handle sample_environment r w)
              = InternalServerError
                  (mk_exn OtherException "cannot write empty image as JPEG"))
    by (vm_compute; reflexivity).
  split; [exact H|].
  exact (proj1 (failed_request_leaves_log sample_environment r w _ H)).
Defined.

End HandlerProperties.

(** ** The image server: statistics and the order of the log *)

Module StatsProperties.

Import Server ServerFacts ServerSpec.

Lemma sum_image_size_from (l : list request_data) (start : Z) :
  fold_left (fun acc req => acc + image_size req) l start
  = start + fold_right Z.add 0 (map image_size l).
Proof.
  revert start. induction l as [|r rest IH]; intro start; simpl.
  - lia.
  - rewrite IH. lia.
Qed.



End StatsProperties.

Module LogOrderProperties.

Import Server ServerFacts ServerSpec.

Lemma chronological_tl (log : list request_data) :
  chronological log -> chronological (tl log).
Proof. destruct log as [|first rest]; simpl; tauto. Qed.

Lemma chronological_snoc (log : list request_data) (latest : request_data) :
  chronological log ->
  Forall (fun r => (timestamp r <= timestamp latest)%Q) log ->
  chronological (log ++ [latest]).
Proof.
  induction log as [|first rest IH]; intros Hlog Hle; simpl.
  - tauto.
  - destruct Hlog as [Hhead Hrest]. inversion Hle as [|? ? Hfirst Hothers]; subst.
    split; [|now apply IH].
    destruct rest as [|second rest']; simpl; [exact Hfirst | exact Hhead].
Qed.

Lemma Forall_tl {A : Type} (P : A -> Prop) (l : list A) :
  Forall P l -> Forall P (tl l).
Proof. intro H. destruct l; simpl; [constructor | now inversion H]. Qed.

(** Recording an observation stamped with the next two clock readings
    keeps the log well stamped. *)
Lemma well_stamped_recorded (env : environment) (w : world)
    (log : list request_data) (recorded : request_data) (reads : nat) :
  monotone_clock env ->
  chronological log ->
  Forall (fun r =>
            (start_time r <= timestamp r)%Q
            /\ exists k : nat,
                 (k < reads)%nat /\ timestamp r = time_time_at env k) log ->
  timestamp recorded = time_time_at env (S reads) ->
  start_time recorded = time_time_at env reads ->
  chronological (appended log recorded)
  /\ Forall (fun r =>
               (start_time r <= timestamp r)%Q
               /\ exists k : nat,
                    (k < S (S reads))%nat /\ timestamp r = time_time_at env k)
       (appended log recorded).
Proof.
  intros Hclock Hlog Hall Hstamp Hstart.
  assert (Hbefore : forall l, Forall (fun r =>
            (start_time r <= timestamp r)%Q
            /\ exists k : nat,
                 (k < reads)%nat /\ timestamp r = time_time_at env k) l ->
          Forall (fun r => (timestamp r <= timestamp recorded)%Q) l).
  { intros l Hl. eapply Forall_impl; [|exact Hl].
    intros r [_ (k & Hk & ->)]. rewrite Hstamp. apply Hclock. lia. }
  assert (Hwiden : forall l, Forall (fun r =>
            (start_time r <= timestamp r)%Q
            /\ exists k : nat,
                 (k < reads)%nat /\ timestamp r = time_time_at env k) l ->
          Forall (fun r =>
            (start_time r <= timestamp r)%Q
            /\ exists k : nat,
                 (k < S (S reads))%nat /\ timestamp r = time_time_at env k)
            (l ++ [recorded])).
  { intros l Hl. apply Forall_app. split.
    - eapply Forall_impl; [|exact Hl].
      intros r [Hr (k & Hk & Heq)]. split; [exact Hr|]. exists k. split; [lia|exact Heq].
    - constructor; [|constructor]. split.
      + rewrite Hstamp, Hstart. apply Hclock. lia.
      + exists (S reads). split; [lia | exact Hstamp]. }
  rewrite appended_cases.
  destruct (Nat.ltb (List.length log) 100).
  - split; [apply chronological_snoc; auto | auto].
  - split.
    + apply chronological_snoc; [now apply chronological_tl|].
      apply Hbefore. now apply Forall_tl.
    + apply Hwiden. now apply Forall_tl.
Qed.

Lemma well_stamped_later (env : environment) (log : list request_data)
    (reads later : nat) :
  (reads <= later)%nat ->
  Forall (fun r =>
            (start_time r <= timestamp r)%Q
            /\ exists k : nat,
                 (k < reads)%nat /\ timestamp r = time_time_at env k) log ->
  Forall (fun r =>
            (start_time r <= timestamp r)%Q
            /\ exists k : nat,
                 (k < later)%nat /\ timestamp r = time_time_at env k) log.
Proof.
  intros Hle H. eapply Forall_impl; [|exact H].
  intros r [Hr (k & Hk & Heq)]. split; [exact Hr|]. exists k. split; [lia|exact Heq].
Qed.

(** Every request keeps the log well stamped. *)
Lemma handle_well_stamped (env : environment) (r : http_request) (w : world) :
  monotone_clock env ->
  well_stamped env w -> well_stamped env (snd (handle env r w)).
Proof.
  intros Hclock [Hlog Hall].
  destruct r as [request width height|request size_kb| |]; simpl.
  - rewrite serve_image_unfold.
    pose proof (generate_calls env width height None (snd (time_time env w)))
      as (Hsame & Hreads & _).
    destruct (generate_test_image env width height None (snd (time_time env w)))
      as [[img_bytes|e] w1]; simpl in Hsame, Hreads; cbn.
    + rewrite Hsame, Hreads.
      apply well_stamped_recorded; auto.
    + unfold well_stamped. rewrite Hsame, Hreads. split; [exact Hlog|].
      eapply well_stamped_later; [|exact Hall]. lia.
  - rewrite serve_sized_image_unfold.
    pose proof (generate_calls env default_width default_height (Some size_kb)
                  (snd (time_time env w))) as (Hsame & Hreads & _).
    destruct (generate_test_image env default_width default_height
                (Some size_kb) (snd (time_time env w)))
      as [[img_bytes|e] w1]; simpl in Hsame, Hreads; cbn.
    + rewrite Hsame, Hreads.
      apply well_stamped_recorded; auto.
    + unfold well_stamped. rewrite Hsame, Hreads. split; [exact Hlog|].
      eapply well_stamped_later; [|exact Hall]. lia.
  - assert (Hsame : snd match get_stats w with
                        | (Returned j, w') => (Json j, w')
                        | (Raised e, w') => (InternalServerError e, w')
                        end = w)
      by (unfold get_stats; destruct (timing_data w); reflexivity).
    rewrite Hsame. split; assumption.
  - unfold well_stamped. simpl. split; [exact I | constructor].
Qed.



End LogOrderProperties.

(** ** The download probe: what a successful download reports *)

Module DownloadProperties.

Import Formatter Downloader DownloaderFacts DownloaderClaims DownloaderSpec.

Lemma wrote_nothing (c : console) : wrote [] 0 c = c.
Proof. destruct c. unfold wrote. simpl. now rewrite app_nil_r. Qed.

Lemma wrote_wrote (first second : list string) (n m : nat) (c : console) :
  wrote second m (wrote first n c) = wrote (first ++ second) (m + n) c.
Proof. unfold wrote. simpl. rewrite <- app_assoc. f_equal. lia. Qed.

(** The loop over the chunks counts every byte and writes the progress
    texts, nothing else. *)
Lemma consume_spec (total_size : option Z) (chunks : list (list Byte.byte)) :
  forall (downloaded : Z) (c : console),
  consume total_size chunks downloaded c
  = (Returned (downloaded + total_length chunks),
     wrote (progress_texts_from total_size chunks downloaded) 0 c).
Proof.
  induction chunks as [|chunk rest IH]; intros downloaded c.
  - simpl. unfold ret. rewrite Z.add_0_r.
    unfold progress_texts_from. simpl.
    destruct total_size as [total|]; [destruct (Z.eqb total 0)|];
      now rewrite wrote_nothing.
  - destruct chunk as [|b chunk].
    + cbn [consume total_length fold_right]. rewrite IH.
      change (len []) with 0. rewrite Z.add_0_l. reflexivity.
    + cbn [consume]. unfold bind.
      set (n := downloaded + len (b :: chunk)).
      assert (Hn : downloaded + total_length ((b :: chunk) :: rest)
                   = n + total_length rest)
        by (unfold n, total_length; cbn [fold_right]; lia).
      rewrite Hn.
      destruct total_size as [total|].
      * unfold truthy_int. unfold progress_texts_from.
        cbn [running_totals]. fold n.
        destruct (Z.eqb total 0) eqn:E; cbn [negb].
        -- unfold ret. rewrite IH. unfold progress_texts_from. now rewrite E.
        -- unfold print_no_end. rewrite IH. unfold progress_texts_from.
           rewrite E. cbn [map]. f_equal. unfold wrote. cbn.
           f_equal. now rewrite <- app_assoc.
      * unfold ret. rewrite IH. reflexivity.
Qed.

(** The [try] block, by what the network does. *)
Lemma download_body_cases (net : network) (url : string) (timeout : Z)
    (c : console) :
  download_body net url timeout c
  = match requests_get net url timeout with
    | Raised e => (Raised e, wrote [] 1 c)
    | Returned r =>
        match status_error r with
        | Some e => (Raised e, wrote [] 1 c)
        | None =>
            match declared_size net r with
            | Raised e => (Raised e, wrote [] 1 c)
            | Returned total_size =>
                match stream_error r with
                | Some e =>
                    (Raised e,
                     wrote (file_size_line total_size
                              :: progress_texts total_size (body_chunks r)) 1 c)
                | None =>
                    (Returned
                       (measured_result url (total_length (body_chunks r))
                          (time_time_at net (S (clock_reads c))
                           - time_time_at net (clock_reads c))),
                     wrote (file_size_line total_size
                              :: progress_texts total_size (body_chunks r)
                                 ++ [newline]) 2 c)
                end
            end
        end
    end.
Proof.
  assert (Hwrote1 : {| stdout := stdout c; clock_reads := S (clock_reads c) |}
                    = wrote [] 1 c)
    by (unfold wrote; simpl; now rewrite app_nil_r).
  unfold download_body. unfold bind at 1. unfold time_time at 1.
  unfold bind at 1. unfold lift_outcome at 1.
  destruct (requests_get net url timeout) as [r|e]; [|now rewrite Hwrote1].
  unfold bind at 1. unfold raise_for_status.
  destruct (status_error r) as [e|]; [unfold raise; now rewrite Hwrote1|].
  unfold ret at 1. unfold bind at 1.
  assert (Hheader :
    (if truthy_str (content_length_header r)
     then
       match content_length_header r with
       | Some text =>
           total_size <- lift_outcome (py_int net text) ;;
           print ("File size: " ++ format_bytes (inject_Z total_size)) ;;;
           ret (Some total_size)
       | None => ret None
       end
     else print "File size: Unknown (streaming)" ;;; ret None)
      {| stdout := stdout c; clock_reads := S (clock_reads c) |}
    = match declared_size net r with
      | Returned total_size =>
          (Returned total_size, wrote [file_size_line total_size] 1 c)
      | Raised e => (Raised e, wrote [] 1 c)
      end).
  { unfold declared_size, truthy_str.
    destruct (content_length_header r) as [[|a s]|];
      try (unfold bind, print, ret; reflexivity).
    unfold bind, lift_outcome.
    destruct (py_int net (String a s)) as [n|e];
      [unfold print, ret; reflexivity | now rewrite Hwrote1]. }
  rewrite Hheader. clear Hheader.
  destruct (declared_size net r) as [total_size|e]; [|reflexivity].
  unfold bind at 1. unfold iter_content. unfold bind at 1.
  rewrite consume_spec. rewrite Z.add_0_l. fold (progress_texts total_size (body_chunks r)).
  rewrite wrote_wrote.
  destruct (stream_error r) as [e|]; [reflexivity|].
  unfold ret at 1. unfold bind at 1. unfold time_time.
  unfold bind, print, ret, measured_result, wrote. cbn.
  f_equal. f_equal. rewrite <- app_assoc. reflexivity.
Qed.

(** The whole function, when the download goes through. *)
Lemma speed_test_goes_through (net : network) (url : string) (timeout : Z)
    (c : console) (r : response) (total_size : option Z) :
  goes_through net url timeout r total_size ->
  test_image_download_speed net url timeout c
  = (Returned
       (measured_result url (total_length (body_chunks r))
          (time_time_at net (S (clock_reads c))
           - time_time_at net (clock_reads c))),
     wrote (file_size_line total_size
              :: progress_texts total_size (body_chunks r) ++ [newline]) 2
       (after_banner url c)).
Proof.
  intros (Hget & Hstatus & Hsize & Hstream).
  rewrite test_image_download_speed_unfold. unfold try_except.
  rewrite download_body_cases, Hget, Hstatus, Hsize, Hstream. reflexivity.
Qed.

(** The whole function, when something fails. *)
Lemma speed_test_fails (net : network) (url : string) (timeout : Z)
    (c : console) :
  (forall r total_size, ~ goes_through net url timeout r total_size) ->
  exists e c',
    test_image_download_speed net url timeout c
    = (Returned (failure_result url e), c').
Proof.
  intro Hno.
  rewrite test_image_download_speed_unfold. unfold try_except.
  rewrite download_body_cases.
  assert (Hhandled : forall e c1,
    exists e' c',
      match exn_class_of e with
      | RequestException =>
          (print ("Error downloading image: " ++ exn_str e) ;;;
           ret (failure_result url e)) c1
      | OtherException =>
          (print ("Unexpected error: " ++ exn_str e) ;;;
           ret (failure_result url e)) c1
      end = (Returned (failure_result url e'), c')).
  { intros e c1. destruct (exn_class_of e); unfold bind, print, ret; eauto. }
  destruct (requests_get net url timeout) as [r|e] eqn:Hget; [|apply Hhandled].
  destruct (status_error r) as [e|] eqn:Hstatus; [apply Hhandled|].
  destruct (declared_size net r) as [total_size|e] eqn:Hsize; [|apply Hhandled].
  destruct (stream_error r) as [e|] eqn:Hstream; [apply Hhandled|].
  exfalso. apply (Hno r total_size). repeat split; assumption.
Qed.


Lemma sample_goes_through :
  goes_through sample_network "http://localhost:5000/image/5kb" 30
    sample_response (Some 5).
Proof. repeat split; reflexivity. Qed.


Lemma running_totals_length (chunks : list (list Byte.byte)) :
  forall downloaded : Z,
  List.length (running_totals chunks downloaded)
  = List.length (non_empty_chunks chunks).
Proof.
  induction chunks as [|chunk rest IH]; intro downloaded; [reflexivity|].
  destruct chunk as [|b chunk]; simpl; [apply IH | now rewrite IH].
Qed.

Lemma running_totals_last (chunks : list (list Byte.byte)) :
  forall downloaded : Z,
  last (running_totals chunks downloaded) downloaded
  = downloaded + total_length chunks.
Proof.
  induction chunks as [|chunk rest IH]; intro downloaded.
  - simpl. unfold total_length. simpl. lia.
  - destruct chunk as [|b chunk].
    + cbn [running_totals]. rewrite IH. unfold total_length. cbn [fold_right].
      change (len []) with 0. lia.
    + cbn [running_totals].
      set (n := downloaded + len (b :: chunk)).
      specialize (IH n).
      destruct (running_totals rest n) as [|first others] eqn:E.
      * cbn [last] in *. unfold total_length in *. cbn [fold_right].
        unfold n in IH. lia.
      * change (last (n :: first :: others) downloaded)
          with (last (first :: others) downloaded).
        replace (last (first :: others) downloaded)
          with (last (first :: others) n)
          by (clear; revert first; induction others as [|o os IHo]; intro first;
              [reflexivity | apply (IHo o)]).
        rewrite IH. unfold n, total_length. cbn [fold_right]. lia.
Qed.




End DownloadProperties.

(** ** The report and the command line *)

Module CliProperties.

Import Formatter Downloader DownloaderFacts DownloaderClaims DownloaderSpec.
Import DownloadProperties Cli.

Lemma went_through_iff (net : network) (url : string) (timeout : Z) :
  went_through net url timeout = true
  <-> exists r total_size, goes_through net url timeout r total_size.
Proof.
  unfold went_through, goes_through. split.
  - destruct (requests_get net url timeout) as [r|e]; [|discriminate].
    destruct (status_error r) eqn:Hs; [discriminate|].
    destruct (declared_size net r) as [t|e] eqn:Hd; [|discriminate].
    destruct (stream_error r) eqn:Hst; [discriminate|].
    intros _. exists r, t. repeat split; assumption.
  - intros (r & t & -> & -> & -> & ->). reflexivity.
Qed.

(** What the probe returns: a measured result when the download went
    through, a failure result otherwise. *)
Lemma probe_result (net : network) (url : string) (timeout : Z) (c : console) :
  exists c',
    if went_through net url timeout
    then exists size duration,
           test_image_download_speed net url timeout c
           = (Returned (measured_result url size duration), c')
    else exists e,
           test_image_download_speed net url timeout c
           = (Returned (failure_result url e), c').
Proof.
  destruct (went_through net url timeout) eqn:Hwent.
  - apply went_through_iff in Hwent. destruct Hwent as (r & t & Hgoes).
    rewrite (speed_test_goes_through net url timeout c r t Hgoes). eauto.
  - assert (Hno : forall r t, ~ goes_through net url timeout r t).
    { intros r t Hgoes.
      assert (went_through net url timeout = true)
        by (apply went_through_iff; eauto).
      congruence. }
    destruct (speed_test_fails net url timeout c Hno) as (e & c' & ->). eauto.
Qed.

(** The report of a failure is one line. *)
Lemma print_results_failure (float_repr : Q -> string) (url : string)
    (e : pyexn) (c : console) :
  print_results float_repr (failure_result url e) c
  = (Returned tt, wrote [text_failed ++ exn_str e ++ newline] 0 c).
Proof.
  unfold print_results, getitem, bind, ret, print, wrote. reflexivity.
Qed.

(** The report of a measured result is nine lines. *)
Lemma print_results_measured (float_repr : Q -> string) (url : string)
    (size : Z) (duration : Q) (c : console) :
  print_results float_repr (measured_result url size duration) c
  = (Returned tt,
     wrote [ (newline ++ string_times "=" 50) ++ newline;
             text_header ++ newline;
             string_times "=" 50 ++ newline;
             ("URL: " ++ url) ++ newline;
             ("File size: " ++ format_bytes (inject_Z size)) ++ newline;
             ("Download time: " ++ format_fixed 2 duration ++ " seconds")
               ++ newline;
             ("Download speed: " ++ format_speed (throughput size duration))
               ++ newline;
             string_times "=" 50 ++ newline;
             speed_band (throughput size duration / inject_Z (1024 * 1024))
               ++ newline ] 0 c).
Proof.
  unfold measured_result, throughput.
  destruct (Qlt_bool 0 duration);
    unfold print_results, getitem, format_2f, true_divide, bind, ret, print,
      wrote; cbn; rewrite <- !app_assoc; reflexivity.
Qed.

(** The report of a probe result returns. *)
Lemma probe_then_report (float_repr : Q -> string) (net : network)
    (url : string) (timeout : Z) (c : console) :
  exists (result : pydict) (c1 c2 : console),
    test_image_download_speed net url timeout c = (Returned result, c1)
    /\ print_results float_repr result c1 = (Returned tt, c2).
Proof.
  destruct (probe_result net url timeout c) as (c1 & Hprobe).
  destruct (went_through net url timeout).
  - destruct Hprobe as (size & duration & Hrun).
    eexists _, c1, _. split; [exact Hrun | apply print_results_measured].
  - destruct Hprobe as (e & Hrun).
    eexists _, c1, _. split; [exact Hrun | apply print_results_failure].
Qed.


Lemma Qdiv_mebi (v : Q) : (v / inject_Z (1024 * 1024) == v * (1 # 1048576))%Q.
Proof. unfold Qdiv. reflexivity. Qed.

(** X13: the bands, in bytes per second.  The band printed for a
    throughput is "Excellent" exactly above 10 MiB/s, "Good" above 5 and
    up to 10, "Moderate" above 1 and up to 5, and "Slow" up to 1 MiB/s:
    each threshold itself falls in the lower band. *)
Theorem speed_band_thresholds (speed_bps : Q) :
  let band := speed_band (speed_bps / inject_Z (1024 * 1024)) in
  (band = text_excellent <-> (10485760 < speed_bps)%Q)
  /\ (band = text_good <-> (5242880 < speed_bps <= 10485760)%Q)
  /\ (band = text_moderate <-> (1048576 < speed_bps <= 5242880)%Q)
  /\ (band = text_slow <-> (speed_bps <= 1048576)%Q).
Proof.
  intro band. unfold band, speed_band.
  pose proof (Qdiv_mebi speed_bps) as Hdiv.
  set (mbps := (speed_bps / inject_Z (1024 * 1024))%Q) in *.
  destruct (Qlt_bool 10 mbps) eqn:E10;
    [apply Qlt_bool_iff in E10 | apply Qlt_bool_false_iff in E10];
  (destruct (Qlt_bool 5 mbps) eqn:E5;
    [apply Qlt_bool_iff in E5 | apply Qlt_bool_false_iff in E5]);
  (destruct (Qlt_bool 1 mbps) eqn:E1;
    [apply Qlt_bool_iff in E1 | apply Qlt_bool_false_iff in E1]);
  rewrite Hdiv in *;
  repeat split; intros;
    try reflexivity; try discriminate; try lra;
    try (exfalso; lra).
Qed.

(** What follows the probe in one test of a run. *)
Lemma after_probe (float_repr : Q -> string) (network_at : nat -> network)
    (args : arguments) (i : nat) (speeds : list pyval) (c0 : console) :
  exists c',
    if went_through (network_at i) (url args) (timeout args)
    then exists (x : Q) (v : pyval),
           as_number v = Some x
           /\ (results <- test_image_download_speed (network_at i) (url args)
                            (timeout args) ;;
               success <- getitem results "success" ;;
               if truthy success then
                 speed_bps <- getitem results "speed_bps" ;;
                 print_results float_repr results ;;;
                 ret (speeds ++ [speed_bps])%list
               else
                 print ("Test " ++ str (Z.of_nat i + 1) ++ " failed: "
                        ++ py_str float_repr
                             (get_default results "error"
                                (PyStr "Unknown error"))) ;;;
                 ret speeds) c0
              = (Returned (speeds ++ [v])%list, c')
    else (results <- test_image_download_speed (network_at i) (url args)
                       (timeout args) ;;
          success <- getitem results "success" ;;
          if truthy success then
            speed_bps <- getitem results "speed_bps" ;;
            print_results float_repr results ;;;
            ret (speeds ++ [speed_bps])%list
          else
            print ("Test " ++ str (Z.of_nat i + 1) ++ " failed: "
                   ++ py_str float_repr
                        (get_default results "error" (PyStr "Unknown error"))) ;;;
            ret speeds) c0
         = (Returned speeds, c').
Proof.
  destruct (probe_result (network_at i) (url args) (timeout args) c0)
    as (c1 & Hprobe).
  destruct (went_through (network_at i) (url args) (timeout args)).
  - destruct Hprobe as (size & duration & Hrun).
    eexists.
    exists (throughput size duration).
    exists (if Qlt_bool 0 duration
            then PyFloat (inject_Z size / duration) else PyInt 0).
    split; [unfold throughput; destruct (Qlt_bool 0 duration); reflexivity|].
    rewrite (ServerFacts.bind_returned _ _ _ _ _ Hrun).
    assert (Hsuccess : getitem (measured_result (url args) size duration)
                         "success" c1 = (Returned (PyBool true), c1))
      by reflexivity.
    rewrite (ServerFacts.bind_returned _ _ _ _ _ Hsuccess). cbn [truthy].
    assert (Hspeed : getitem (measured_result (url args) size duration)
                       "speed_bps" c1
                     = (Returned (if Qlt_bool 0 duration
                                  then PyFloat (inject_Z size / duration)
                                  else PyInt 0), c1))
      by reflexivity.
    rewrite (ServerFacts.bind_returned _ _ _ _ _ Hspeed).
    rewrite (ServerFacts.bind_returned _ _ _ _ _
               (print_results_measured float_repr (url args) size duration c1)).
    reflexivity.
  - destruct Hprobe as (e & Hrun).
    eexists.
    rewrite (ServerFacts.bind_returned _ _ _ _ _ Hrun).
    assert (Hsuccess : getitem (failure_result (url args) e) "success" c1
                       = (Returned (PyBool false), c1)) by reflexivity.
    rewrite (ServerFacts.bind_returned _ _ _ _ _ Hsuccess). cbn [truthy].
    reflexivity.
Qed.

(** One test of a run: the throughput is collected when the download went
    through, and nothing is when it failed; the turn does not raise. *)
Lemma one_test_spec (float_repr : Q -> string) (network_at : nat -> network)
    (args : arguments) (i : nat) (speeds : list pyval) (c : console) :
  exists c',
    if went_through (network_at i) (url args) (timeout args)
    then exists (x : Q) (v : pyval),
           as_number v = Some x
           /\ one_test float_repr network_at args i speeds c
              = (Returned (speeds ++ [v])%list, c')
    else one_test float_repr network_at args i speeds c = (Returned speeds, c').
Proof.
  exact (after_probe float_repr network_at args i speeds
           {| stdout :=
                (stdout c
                 ++ [((newline ++ "--- Test " ++ str (Z.of_nat i + 1) ++ "/"
                       ++ str (multiple args) ++ " ---") ++ newline)%string])%list;
              clock_reads := clock_reads c |}).
Qed.

(** The loop of a run: it does not raise, and it collects one number per
    test that went through. *)
Lemma run_tests_spec (float_repr : Q -> string) (network_at : nat -> network)
    (args : arguments) (tests : list nat) :
  forall (speeds : list pyval) (c : console),
  exists (collected : list pyval) (c' : console),
    Server.for_each tests speeds (one_test float_repr network_at args) c
    = (Returned (speeds ++ collected)%list, c')
    /\ List.length collected
       = List.length
           (filter (fun i => went_through (network_at i) (url args) (timeout args))
              tests)
    /\ Forall (fun v => exists x, as_number v = Some x) collected.
Proof.
  induction tests as [|i rest IH]; intros speeds c.
  - exists [], c. simpl. unfold ret. rewrite app_nil_r. repeat split. constructor.
  - cbn [Server.for_each filter].
    destruct (one_test_spec float_repr network_at args i speeds c) as (c1 & Hone).
    destruct (went_through (network_at i) (url args) (timeout args)).
    + destruct Hone as (x & v & Hv & Hone).
      rewrite (ServerFacts.bind_returned _ _ _ _ _ Hone).
      destruct (IH (speeds ++ [v])%list c1) as (collected & c' & Hrun & Hlen & Hall).
      exists (v :: collected), c'. split; [|split].
      * rewrite Hrun, <- app_assoc. reflexivity.
      * simpl. now rewrite Hlen.
      * constructor; eauto.
    + rewrite (ServerFacts.bind_returned _ _ _ _ _ Hone).
      destruct (IH speeds c1) as (collected & c' & Hrun & Hlen & Hall).
      exists collected, c'. auto.
Qed.

(** The sum of numbers does not raise. *)
Lemma py_sum_numbers (values : list pyval) :
  Forall (fun v => exists x, as_number v = Some x) values ->
  forall (total : Q) (c : console),
  exists sum : Q,
    py_sum values total c = (Returned sum, c)
    /\ (sum == total + numbers_total values)%Q.
Proof.
  induction 1 as [|v rest (x & Hx) _ IH]; intros total c.
  - exists total. split; [reflexivity|]. unfold numbers_total. simpl. ring.
  - cbn [py_sum]. rewrite Hx.
    destruct (IH (total + x)%Q c) as (sum & Hrun & Hsum).
    exists sum. split; [exact Hrun|].
    rewrite Hsum. unfold numbers_total. cbn [fold_right]. rewrite Hx. ring.
Qed.

Lemma print_then {A : Type} (text : string) (k : M console A) (c : console) :
  (print text ;;; k) c = k (wrote [text ++ newline] 0 c).
Proof. reflexivity. Qed.


End CliProperties.

(** ** The report formatter: precision and order *)

Module FormattingProperties.

Import Formatter FormatterFacts.

(** Rounding moves a value by at most one half. *)
Lemma round_half_even_close (x : Q) :
  (inject_Z (round_half_even x) - (1 # 2) <= x)%Q
  /\ (x <= inject_Z (round_half_even x) + (1 # 2))%Q.
Proof.
  destruct x as [n d]. unfold round_half_even. cbn [Qnum Qden].
  pose proof (Z.div_mod n (Z.pos d) ltac:(lia)) as Hdm.
  pose proof (Z.mod_pos_bound n (Z.pos d) ltac:(lia)) as Hr.
  set (f := n / Z.pos d) in *. set (r := n mod Z.pos d) in *.
  assert (Hgoal : forall m : Z,
            2 * (m * Z.pos d - n) <= Z.pos d ->
            2 * (n - m * Z.pos d) <= Z.pos d ->
            (inject_Z m - (1 # 2) <= n # d)%Q /\ (n # d <= inject_Z m + (1 # 2))%Q).
  { intros m H1 H2. unfold Qle, Qminus, Qplus, Qopp, inject_Z. cbn.
    rewrite ?Pos2Z.inj_mul. split; nia. }
  destruct (Z.compare_spec (2 * r) (Z.pos d)) as [Heq|Hlt|Hgt].
  - destruct (Z.even f); apply Hgoal; nia.
  - apply Hgoal; nia.
  - apply Hgoal; nia.
Qed.

Lemma scale_value_nonneg (fuel : nat) (value : Q) :
  (0 <= value)%Q -> (0 <= scale_value fuel value)%Q.
Proof.
  revert value. induction fuel as [|fuel IH]; intros value H; simpl.
  - exact H.
  - destruct (Qlt_bool value 1024); [exact H|].
    apply IH. rewrite Qdiv_1024. lra.
Qed.

Lemma two_digits (k : Z) :
  0 <= k < 100 -> String.length (zfill 2 (str k)) = 2%nat.
Proof.
  intro H. replace k with (Z.of_nat (Z.to_nat k)) by lia.
  assert (Hn : (Z.to_nat k < 100)%nat) by lia.
  generalize dependent (Z.to_nat k). clear k H. intros n Hn.
  do 100 (destruct n as [|n]; [reflexivity|]). lia.
Qed.



Lemma scale_steps_monotone (fuel : nat) :
  forall x y : Q, (x <= y)%Q -> (scale_steps fuel x <= scale_steps fuel y)%nat.
Proof.
  induction fuel as [|fuel IH]; intros x y Hxy; simpl; [lia|].
  destruct (Qlt_bool x 1024) eqn:Ex; [lia|].
  apply Qlt_bool_false_iff in Ex.
  destruct (Qlt_bool y 1024) eqn:Ey.
  - apply Qlt_bool_iff in Ey. lra.
  - apply le_n_S. apply IH. rewrite !Qdiv_1024. lra.
Qed.

Lemma scale_steps_threshold (fuel : nat) :
  forall (v : Q) (k : nat),
  (1 <= k <= fuel)%nat ->
  ((k <= scale_steps fuel v)%nat <-> (inject_Z (1024 ^ Z.of_nat k) <= v)%Q).
Proof.
  induction fuel as [|fuel IH]; intros v k Hk; [lia|].
  cbn [scale_steps].
  assert (Hpow : (inject_Z (1024 ^ Z.of_nat k)
                  == 1024 * inject_Z (1024 ^ Z.of_nat (k - 1)))%Q).
  { replace (Z.of_nat k) with (Z.succ (Z.of_nat (k - 1))) by lia.
    rewrite Z.pow_succ_r by lia. rewrite inject_Z_mult. reflexivity. }
  assert (Hone : (1 <= inject_Z (1024 ^ Z.of_nat (k - 1)))%Q).
  { change 1%Q with (inject_Z 1). rewrite <- Zle_Qle.
    assert (0 < 1024 ^ Z.of_nat (k - 1)) by (apply Z.pow_pos_nonneg; lia). lia. }
  destruct (Qlt_bool v 1024) eqn:E.
  - apply Qlt_bool_iff in E. split; [lia|].
    intro H. rewrite Hpow in H. lra.
  - apply Qlt_bool_false_iff in E.
    destruct (Nat.eq_dec k 1) as [->|Hk1].
    + split; [|lia]. intros _.
      change (inject_Z (1024 ^ Z.of_nat 1)) with 1024%Q. exact E.
    + specialize (IH (v / 1024)%Q (k - 1)%nat ltac:(lia)).
      pose proof (Qdiv_1024 v) as Hd.
      set (w := (v / 1024)%Q) in *.
      rewrite Hpow. split.
      * intro H. assert (H' : (k - 1 <= scale_steps fuel w)%nat) by lia.
        apply IH in H'. lra.
      * intro H.
        assert (H' : (inject_Z (1024 ^ Z.of_nat (k - 1)) <= w)%Q) by lra.
        apply IH in H'. lia.
Qed.

(** X16: the unit follows the size.  A larger value never gets a smaller
    unit, and the unit changes exactly at the powers of 1024: for [k] from
    1 to 4 the unit has rank [k] or more (KB, MB, GB, TB) exactly when the
    value is [1024^k] or more. *)
Theorem unit_follows_size (x y : Q) (k : nat) :
  (x <= y)%Q ->
  (1 <= k <= 4)%nat ->
  (unit_index x <= unit_index y)%nat
  /\ ((k <= unit_index x)%nat <-> (inject_Z (1024 ^ Z.of_nat k) <= x)%Q).
Proof.
  intros Hxy Hk. split.
  - now apply scale_steps_monotone.
  - now apply scale_steps_threshold.
Qed.

Lemma unit_follows_size_witness :
  (1536 <= 2000000)%Q
  /\ (1 <= 1 <= 4)%nat
  /\ (unit_index 1536 <= unit_index 2000000)%nat
  /\ ((1 <= unit_index 1536)%nat <-> (inject_Z (1024 ^ Z.of_nat 1) <= 1536)%Q).
Proof.
  assert (Hxy : (1536 <= 2000000)%Q) by (unfold Qle; simpl; lia).
  assert (Hk : (1 <= 1 <= 4)%nat) by lia.
  split; [exact Hxy|]. split; [exact Hk|].
  exact (unit_follows_size 1536 2000000 1 Hxy Hk).
Defined.

End FormattingProperties.
